(** * FLACer: FLAC to MP3 / M4A conversion pipeline

    A shallow embedding of [FLACer.py]: the two converter classes
    ([MP3_LAME], [AAC_better]), the factory ([Fucktory.get_converter]),
    the batch driver ([process_files]) and the guard of the convert
    button ([configure_converter_ui]).

    Python [str] values are [String.string]s of ASCII code points; the
    only larger code point is the [\xa9] of the MP4 atom names.  The
    audio and tagging libraries (pydub, mutagen) are external: they
    enter as the fields of a [Backend] record. *)

From Stdlib Require Import ZArith Ascii String List Bool Lia.
From stdpp Require Import base option list strings pretty gmap.

Open Scope string_scope.
Open Scope list_scope.

(** ** Python string primitives *)

Module Py.

(** [c.lower()] and [c.upper()] on an ASCII code point. *)
Definition lower_char (c : ascii) : ascii :=
  let n := N_of_ascii c in
  if ((65 <=? n) && (n <=? 90))%N then ascii_of_N (n + 32) else c.

Definition upper_char (c : ascii) : ascii :=
  let n := N_of_ascii c in
  if ((97 <=? n) && (n <=? 122))%N then ascii_of_N (n - 32) else c.

Fixpoint map_string (f : ascii -> ascii) (s : string) : string :=
  match s with
  | EmptyString => EmptyString
  | String c r => String (f c) (map_string f r)
  end.

(** [s.lower()], [s.upper()]. *)
Definition lower : string -> string := map_string lower_char.
Definition upper : string -> string := map_string upper_char.

(** [s.split(sep)] for a one-character separator: never empty, the
    segments between the separators in order. *)
Fixpoint split (sep : ascii) (s : string) : list string :=
  match s with
  | EmptyString => [EmptyString]
  | String c r =>
      if Ascii.eqb c sep then EmptyString :: split sep r
      else match split sep r with
           | seg :: segs => String c seg :: segs
           | [] => [String c EmptyString]
           end
  end.

(** Does [sep] occur in [s]? *)
Fixpoint contains (sep : ascii) (s : string) : bool :=
  match s with
  | EmptyString => false
  | String c r => Ascii.eqb c sep || contains sep r
  end.

(** [s.rsplit(sep, 1)[0]]: the text before the last [sep], the whole
    of [s] when [sep] does not occur. *)
Fixpoint rsplit1_head (sep : ascii) (s : string) : string :=
  match s with
  | EmptyString => EmptyString
  | String c r =>
      if Ascii.eqb c sep && negb (contains sep r) then EmptyString
      else String c (rsplit1_head sep r)
  end.

(** [sep * n]. *)
Fixpoint repeat_char (c : ascii) (n : nat) : string :=
  match n with
  | O => EmptyString
  | S k => String c (repeat_char c k)
  end.

(** Whitespace skipped by [int()] around the literal. *)
Definition is_space (c : ascii) : bool :=
  let n := N_of_ascii c in
  (((9 <=? n) && (n <=? 13)) || (n =? 32))%N.

Definition digit_of (c : ascii) : option Z :=
  let n := N_of_ascii c in
  if ((48 <=? n) && (n <=? 57))%N then Some (Z.of_N (n - 48)) else None.

Fixpoint lstrip (s : string) : string :=
  match s with
  | String c r => if is_space c then lstrip r else s
  | EmptyString => EmptyString
  end.

Fixpoint all_space (s : string) : bool :=
  match s with
  | EmptyString => true
  | String c r => is_space c && all_space r
  end.

(** The digits of a base-10 literal after its first digit: [acc] is
    the value read so far.  A single underscore may separate two
    digits; trailing whitespace ends the literal. *)
Fixpoint int_digits (acc : Z) (s : string) : option Z :=
  match s with
  | EmptyString => Some acc
  | String c r =>
      match digit_of c with
      | Some d => int_digits (10 * acc + d) r
      | None =>
          if Ascii.eqb c "_" then
            match r with
            | String c' r' =>
                match digit_of c' with
                | Some d => int_digits (10 * acc + d) r'
                | None => None
                end
            | EmptyString => None
            end
          else if all_space s then Some acc else None
      end
  end.

Definition int_unsigned (s : string) : option Z :=
  match s with
  | String c r =>
      match digit_of c with
      | Some d => int_digits d r
      | None => None
      end
  | EmptyString => None
  end.

(** [int(s)] in base 10 on ASCII text: [None] stands for [ValueError].
    The interpreter's cap on the number of digits is not modelled. *)
Definition int (s : string) : option Z :=
  match lstrip s with
  | String "+" r => int_unsigned r
  | String "-" r => Z.opp <$> int_unsigned r
  | t => int_unsigned t
  end.

(** [str(n)] for an [int], as [f'{n}'] renders it. *)
Definition str_of_Z (n : Z) : string := pretty n.
Definition str_of_nat (n : nat) : string := pretty n.

End Py.

(** ** Exceptions and the state-and-exception monad *)

(** The exception classes the program distinguishes: the handler of the
    track-number parse names [ValueError] and [IndexError]; everything
    else a library raises is an [Exception] to the batch driver. *)
Inductive ExnClass := ValueError | IndexError | AttributeError | LibraryError.

(** An exception: its class and [str(e)]. *)
Record Exn := { exn_class : ExnClass; exn_msg : string }.

Inductive Result (A : Type) : Type :=
  | Ok (a : A)
  | Raise (e : Exn).
Arguments Ok {A} a.
Arguments Raise {A} e.

(** A computation over a mutable state [S] that returns or raises.  The
    state survives a raise: what was appended to a list before the
    exception stays appended. *)
Definition M (S A : Type) : Type := S -> Result A * S.

#[global] Instance M_ret {S} : MRet (M S) := λ A a s, (Ok a, s).
#[global] Instance M_bind {S} : MBind (M S) := λ A B k m s,
  match m s with
  | (Ok a, s') => k a s'
  | (Raise e, s') => (Raise e, s')
  end.

Definition raise {S A} (e : Exn) : M S A := λ s, (Raise e, s).
Definition lift_result {S A} (r : Result A) : M S A := λ s, (r, s).
Definition modify {S} (f : S -> S) : M S unit := λ s, (Ok tt, f s).
Definition gets {S A} (f : S -> A) : M S A := λ s, (Ok (f s), s).

(** [try: body except <classes>: handler]. *)
Definition try_except {S A} (body : M S A) (caught : ExnClass -> bool)
    (handler : Exn -> M S A) : M S A := λ s,
  match body s with
  | (Ok a, s') => (Ok a, s')
  | (Raise e, s') => if caught (exn_class e) then handler e s' else (Raise e, s')
  end.

(** [for x in xs: acc = body(acc, x)], stopping at the first raise. *)
Fixpoint for_each {S A X} (body : A -> X -> M S A) (xs : list X) (acc : A) : M S A :=
  match xs with
  | [] => mret acc
  | x :: rest => acc' ← body acc x; for_each body rest acc'
  end.

(** [l[i]]. *)
Definition index {S A} (l : list A) (i : nat) : M S A :=
  match l !! i with
  | Some a => mret a
  | None => raise {| exn_class := IndexError; exn_msg := "list index out of range" |}
  end.

(** ** Data *)

Definition bytes := list Byte.byte.

(** [io.BytesIO]: the content and the cursor. *)
Record BytesIO := { getvalue : bytes; tell : nat }.

Definition seek (b : BytesIO) (offset : nat) : BytesIO :=
  {| getvalue := getvalue b; tell := offset |}.

(** [buf.write(data)]: overwrite at the cursor, extend past the end,
    leave the cursor after what was written (the cursor is never past
    the end in this program). *)
Definition write (b : BytesIO) (data : bytes) : BytesIO :=
  {| getvalue := take (tell b) (getvalue b) ++ data
                 ++ drop (tell b + length data) (getvalue b);
     tell := tell b + length data |}.

(** An uploaded file: a [BytesIO] with a [name]. *)
Record UploadedFile := { name : string; file_data : BytesIO }.

(** [mutagen.flac.Picture]. *)
Record Picture := {
  mime : string; pic_type : N; desc : string; data : bytes }.

(** [mutagen.flac.FLAC] as the program reads it: [items()] in order,
    each key with its list of values, and [pictures]. *)
Record FLAC := {
  items : list (string * list string);
  pictures : list Picture }.

(** The ID3 frame classes of [MP3_LAME]'s [tag_map]. *)
Inductive FrameClass := TPE1 | TALB | TIT2 | TRCK | TDRC | TCON.

(** An ID3 frame as the program constructs it. *)
Inductive Frame :=
  | TextFrame (cls : FrameClass) (encoding : N) (text : string)
  | APIC (encoding : N) (apic_mime : string) (apic_type : N)
         (apic_desc : string) (apic_data : bytes).

(** [mutagen.mp4.MP4Cover.FORMAT_JPEG], [FORMAT_PNG]. *)
Inductive ImageFormat := FORMAT_JPEG | FORMAT_PNG.

(** [mutagen.mp4.MP4Cover(data, imageformat=...)]. *)
Record MP4Cover := { cover_data : bytes; imageformat : ImageFormat }.

(** The values the program assigns to MP4 atoms. *)
Inductive Mp4Value :=
  | Mp4Text (s : string)
  | Mp4Pairs (l : list (Z * Z))
  | Mp4Covers (l : list MP4Cover).

(** ** The external libraries *)

(** pydub and mutagen.  Reading a buffer leaves its content alone, so a
    reader is a function of the buffer it is given; a writer returns the
    buffer as it leaves it, cursor included.  The tag objects are
    handles: the program's additions are threaded beside them, in call
    order, and handed to [save]. *)
Record Backend := {
  AudioSegment : Type;
  MP3 : Type;
  MP4 : Type;
  (** [mutagen.flac.FLAC(file_data)] *)
  flac_open : BytesIO -> Result FLAC;
  (** [AudioSegment.from_file(file_data, format="flac")] *)
  from_file : BytesIO -> Result AudioSegment;
  (** [f"{len(audio) / 1000:.2f}"] *)
  duration_text : AudioSegment -> string;
  (** [audio.export(io.BytesIO(), format=..., parameters=...)] *)
  export : AudioSegment -> string -> list string -> Result BytesIO;
  (** [mutagen.mp3.MP3(output_buffer, ID3=ID3)] *)
  mp3_open : BytesIO -> Result MP3;
  (** [mp3_meta.tags is not None] *)
  mp3_has_tags : MP3 -> bool;
  (** [mp3_meta.save(output_buffer)] *)
  mp3_save : MP3 -> list Frame -> BytesIO -> Result BytesIO;
  (** [mutagen.mp4.MP4(output_buffer)] *)
  mp4_open : BytesIO -> Result MP4;
  (** the validation of [mp4_meta[key] = value], [None] when accepted *)
  mp4_check : string -> Mp4Value -> option Exn;
  (** [mp4_meta.save(output_buffer)] *)
  mp4_save : MP4 -> list (string * Mp4Value) -> BytesIO -> Result BytesIO }.

(** ** The converters *)

Definition Log := list string.

(** [logger.append(line)]. *)
Definition append (line : string) : M Log unit := modify (λ l, l ++ [line]).

(** The two subclasses of [AudioConverter]. *)
Inductive Converter := MP3_LAME | AAC_better.

(** [MP3_LAME.process]'s [tag_map]. *)
Definition mp3_tag_map : gmap string FrameClass :=
  <["artist" := TPE1]> (<["album" := TALB]> (<["title" := TIT2]>
  (<["tracknumber" := TRCK]> (<["date" := TDRC]> (<["genre" := TCON]> ∅))))).

Definition copyright : ascii := "169"%char.

(** [AAC_better.process]'s [tag_map]. *)
Definition mp4_tag_map : gmap string string :=
  <["artist" := String copyright "ART"]> (<["album" := String copyright "alb"]>
  (<["title" := String copyright "nam"]> (<["tracknumber" := "trkn"]>
  (<["date" := String copyright "day"]> (<["genre" := String copyright "gen"]> ∅))))).

(** [int(s)] as a step of a computation. *)
Definition py_int {S} (s : string) : M S Z :=
  match Py.int s with
  | Some z => mret z
  | None => raise {| exn_class := ValueError;
                     exn_msg := "invalid literal for int() with base 10: '" +:+ s +:+ "'" |}
  end.

(** [except (ValueError, IndexError)]. *)
Definition value_or_index_error (c : ExnClass) : bool :=
  match c with
  | ValueError | IndexError => true
  | AttributeError | LibraryError => false
  end.

(** [except Exception]. *)
Definition any_exception (c : ExnClass) : bool := true.

Section Converters.
Context (B : Backend).

(** Lines 29-35: the encoder parameters of [MP3_LAME.process] and the
    log line that goes with them. *)
Definition MP3_LAME_parameters (bitrate : Z) (conversion_type : string)
    : M Log (list string) :=
  let parameters := ["-codec:a"; "libmp3lame"; "-id3v2_version"; "3"] in
  if decide (conversion_type = "vbr") then
    append "INFO: Applying VBR encoding (audio only).";;
    mret (parameters ++ ["-q:a"; "0"])
  else
    append ("INFO: Applying " +:+ Py.upper conversion_type +:+ " encoding (audio only).");;
    mret (parameters ++ ["-b:a"; Py.str_of_Z bitrate +:+ "k"]).

(** Lines 75-81: the same for [AAC_better.process]. *)
Definition AAC_better_parameters (bitrate : Z) (conversion_type : string)
    : M Log (list string) :=
  let parameters := ["-c:a"; "aac"] in
  if decide (conversion_type = "vbr") then
    append "INFO: Applying VBR encoding (audio only).";;
    mret (parameters ++ ["-q:a"; "2"])
  else
    append ("INFO: Applying " +:+ Py.upper conversion_type +:+ " encoding (audio only).");;
    mret (parameters ++ ["-b:a"; Py.str_of_Z bitrate +:+ "k"]).

(** [mp3_meta.tags.add]: the attribute lookup, which fails on [None]
    before the argument is evaluated. *)
Definition mp3_tags_add (mp3_meta : MP3 B) : M Log unit :=
  if mp3_has_tags B mp3_meta then mret tt
  else raise {| exn_class := AttributeError;
                exn_msg := "'NoneType' object has no attribute 'add'" |}.

(** Lines 48-51: the body of the tag loop of [MP3_LAME.process];
    [frames] are the frames added so far. *)
Definition MP3_LAME_tag (mp3_meta : MP3 B) (frames : list Frame)
    (item : string * list string) : M Log (list Frame) :=
  let '(key, value) := item in
  match mp3_tag_map !! Py.lower key with
  | Some frame_class =>
      mp3_tags_add mp3_meta;;
      text ← index value 0;
      mret (frames ++ [TextFrame frame_class 3 text])
  | None => mret frames
  end.

(** Lines 53-55. *)
Definition MP3_LAME_picture (mp3_meta : MP3 B) (flac_meta : FLAC)
    (frames : list Frame) : M Log (list Frame) :=
  match pictures flac_meta with
  | pic :: _ =>
      mp3_tags_add mp3_meta;;
      mret (frames ++ [APIC 3 (mime pic) (pic_type pic) (desc pic) (data pic)])
  | [] => mret frames
  end.

(** [MP3_LAME.process(file_data, bitrate, conversion_type, logger,
    filename)]; [logger] is the state.  [save] gets the buffer as it
    was rewound for [mp3_open]: where the reader leaves the cursor is
    the library's business, known to the handle. *)
Definition MP3_LAME_process (file_data : BytesIO) (bitrate : Z)
    (conversion_type filename : string) : M Log BytesIO :=
  append ("INFO: Starting MP3 conversion for '" +:+ filename +:+ "'.");;
  flac_meta ← lift_result (flac_open B (seek file_data 0));
  append "INFO: Successfully extracted source metadata.";;
  audio ← lift_result (from_file B (seek file_data 0));
  append ("INFO: Loaded audio data. Duration: " +:+ duration_text B audio +:+ "s.");;
  parameters ← MP3_LAME_parameters bitrate conversion_type;
  output_buffer ← lift_result (export B audio "mp3" parameters);
  append "INFO: Audio conversion complete. Applying metadata.";;
  let output_buffer := seek output_buffer 0 in
  mp3_meta ← lift_result (mp3_open B output_buffer);
  frames ← for_each (MP3_LAME_tag mp3_meta) (items flac_meta) [];
  frames ← MP3_LAME_picture mp3_meta flac_meta frames;
  output_buffer ← lift_result (mp3_save B mp3_meta frames output_buffer);
  append "INFO: Metadata successfully applied.";;
  append ("SUCCESS: Finished MP3 conversion for '" +:+ filename +:+ "'.");;
  mret output_buffer.

(** [mp4_meta[key] = value]; [atoms] are the assignments so far. *)
Definition mp4_setitem (atoms : list (string * Mp4Value)) (key : string)
    (value : Mp4Value) : M Log (list (string * Mp4Value)) :=
  match mp4_check B key value with
  | None => mret (atoms ++ [(key, value)])
  | Some e => raise e
  end.

(** Lines 101-104: the body of the [try]. *)
Definition AAC_better_track (atoms : list (string * Mp4Value)) (tag_key : string)
    (value : list string) : M Log (list (string * Mp4Value)) :=
  v ← index value 0;
  let track_info := Py.split "/" v in
  s ← index track_info 0;
  track_num ← py_int s;
  total_tracks ← (if decide (1 < length track_info)
                  then s ← index track_info 1; py_int s
                  else mret 0%Z);
  mp4_setitem atoms tag_key (Mp4Pairs [(track_num, total_tracks)]).

(** Lines 94-108: the body of the tag loop of [AAC_better.process]. *)
Definition AAC_better_tag (atoms : list (string * Mp4Value))
    (item : string * list string) : M Log (list (string * Mp4Value)) :=
  let '(key, value) := item in
  match mp4_tag_map !! Py.lower key with
  | None => mret atoms
  | Some tag_key =>
      if decide (tag_key = "trkn") then
        try_except (AAC_better_track atoms tag_key value) value_or_index_error
          (λ _, v ← index value 0;
                append ("WARNING: Could not parse track number '" +:+ v +:+ "'. Skipping.");;
                mret atoms)
      else
        v ← index value 0;
        mp4_setitem atoms tag_key (Mp4Text v)
  end.

(** Lines 110-113. *)
Definition AAC_better_picture (flac_meta : FLAC)
    (atoms : list (string * Mp4Value)) : M Log (list (string * Mp4Value)) :=
  match pictures flac_meta with
  | pic :: _ =>
      let image_format :=
        if decide (mime pic = "image/jpeg") then FORMAT_JPEG else FORMAT_PNG in
      mp4_setitem atoms "covr"
        (Mp4Covers [{| cover_data := data pic; imageformat := image_format |}])
  | [] => mret atoms
  end.

(** [AAC_better.process(file_data, bitrate, conversion_type, logger,
    filename)]. *)
Definition AAC_better_process (file_data : BytesIO) (bitrate : Z)
    (conversion_type filename : string) : M Log BytesIO :=
  append ("INFO: Starting M4A (AAC) conversion for '" +:+ filename +:+ "'.");;
  flac_meta ← lift_result (flac_open B (seek file_data 0));
  append "INFO: Successfully extracted source metadata.";;
  audio ← lift_result (from_file B (seek file_data 0));
  append ("INFO: Loaded audio data. Duration: " +:+ duration_text B audio +:+ "s.");;
  parameters ← AAC_better_parameters bitrate conversion_type;
  output_buffer ← lift_result (export B audio "mp4" parameters);
  append "INFO: Audio conversion complete. Applying metadata.";;
  let output_buffer := seek output_buffer 0 in
  mp4_meta ← lift_result (mp4_open B output_buffer);
  atoms ← for_each AAC_better_tag (items flac_meta) [];
  atoms ← AAC_better_picture flac_meta atoms;
  output_buffer ← lift_result (mp4_save B mp4_meta atoms output_buffer);
  append "INFO: Metadata successfully applied.";;
  append ("SUCCESS: Finished M4A conversion for '" +:+ filename +:+ "'.");;
  mret output_buffer.

(** [converter.process(...)], dispatched on the class. *)
Definition process (converter : Converter) : BytesIO -> Z -> string -> string -> M Log BytesIO :=
  match converter with
  | MP3_LAME => MP3_LAME_process
  | AAC_better => AAC_better_process
  end.

End Converters.

(** [Fucktory.get_converter(format)]. *)
Definition get_converter (format : string) : Result Converter :=
  if decide (format = "mp3") then Ok MP3_LAME
  else if decide (format = "m4a") then Ok AAC_better
  else Raise {| exn_class := ValueError; exn_msg := "Unknown format specified" |}.

(** ** The batch driver *)

(** [zipfile.ZipFile(zip_buffer, 'w', compression)]: the archive as its
    compression method and its entries in the order they were written.
    The bytes [zip_buffer.getvalue()] holds once the archive is closed
    are the serialisation of exactly this, and stand for it here. *)
Inductive ZipCompression := ZIP_STORED | ZIP_DEFLATED.

Record ZipFile := {
  compression : ZipCompression;
  entries : list (string * bytes) }.

(** [zip_file.writestr(arcname, data)]. *)
Definition writestr (zip_file : ZipFile) (arcname : string) (content : bytes) : ZipFile :=
  {| compression := compression zip_file;
     entries := entries zip_file ++ [(arcname, content)] |}.

(** What [st.download_button] is given as [data]. *)
Inductive DownloadData :=
  | BufferData (output_buffer : BytesIO)
  | ArchiveData (archive : ZipFile).

(** The streamlit calls of the batch driver. *)
Inductive UiEvent :=
  | Spinner (text : string)
  | Success (body : string)
  | Warning (body : string)
  | Error (body : string)
  | DownloadButton (label : string) (payload : DownloadData)
                   (file_name : string) (mime_type : string).

(** Instrumentation, not program state: the calls into the factory and
    into the converters, in the order they are made. *)
Inductive Call :=
  | CallGetConverter (format : string)
  | CallProcess (converter : Converter) (filename : string).

(** [st.session_state] and what the page shows. *)
Record World := {
  session_format : option string;
  session_type : option string;
  session_logs : Log;
  ui : list UiEvent;
  calls : list Call }.

Definition set_logs (l : Log) (w : World) : World :=
  {| session_format := session_format w; session_type := session_type w;
     session_logs := l; ui := ui w; calls := calls w |}.

Definition add_ui (e : UiEvent) (w : World) : World :=
  {| session_format := session_format w; session_type := session_type w;
     session_logs := session_logs w; ui := ui w ++ [e]; calls := calls w |}.

Definition add_call (c : Call) (w : World) : World :=
  {| session_format := session_format w; session_type := session_type w;
     session_logs := session_logs w; ui := ui w; calls := calls w ++ [c] |}.

(** A computation on [logger], which aliases [st.session_state.logs]. *)
Definition with_logger {A} (m : M Log A) : M World A := λ w,
  let '(r, l) := m (session_logs w) in (r, set_logs l w).

Definition log (line : string) : M World unit := with_logger (append line).
Definition show (e : UiEvent) : M World unit := modify (add_ui e).
Definition record (c : Call) : M World unit := modify (add_call c).

(** [x.upper()] on [None]. *)
Definition none_upper : Exn :=
  {| exn_class := AttributeError;
     exn_msg := "'NoneType' object has no attribute 'upper'" |}.

(** [f"{file.name.rsplit('.', 1)[0]}.{selected_format}"]. *)
Definition new_filename (file : UploadedFile) (selected_format : string) : string :=
  Py.rsplit1_head "." (name file) +:+ "." +:+ selected_format.

Definition separator : string := Py.repeat_char "-" 30.

Section Driver.
Context (B : Backend).

(** A call of [converter.process] from the driver. *)
Definition call_process (converter : Converter) (file : UploadedFile)
    (bitrate : Z) (conversion_type : string) : M World BytesIO :=
  record (CallProcess converter (name file));;
  with_logger (process B converter (file_data file) bitrate conversion_type (name file)).

(** Lines 247-252: the body of the loop over [enumerate(files)]; the
    accumulator is the next index and the archive. *)
Definition zip_one (converter : Converter) (selected_format conversion_type : string)
    (total : nat) (acc : nat * ZipFile) (file : UploadedFile) : M World (nat * ZipFile) :=
  let '(i, zip_file) := acc in
  log separator;;
  log ("INFO: Processing file " +:+ Py.str_of_nat (i + 1) +:+ " of "
       +:+ Py.str_of_nat total +:+ ": '" +:+ name file +:+ "'");;
  output_buffer ← call_process converter file 320 conversion_type;
  mret (S i, writestr zip_file (new_filename file selected_format) (getvalue output_buffer)).

(** Lines 230-263: the body of the [try]. *)
Definition convert_all (files : list UploadedFile)
    (selected_format conversion_type : string) : M World unit :=
  record (CallGetConverter selected_format);;
  converter ← lift_result (get_converter selected_format);
  show (Spinner ("Converting " +:+ Py.str_of_nat (length files) +:+ " file(s)..."));;
  if decide (length files = 1) then
    file ← index files 0;
    output_buffer ← call_process converter file 320 conversion_type;
    show (Success ("Conversion of '" +:+ name file +:+ "' successful!"));;
    show (DownloadButton ("Download " +:+ Py.upper selected_format)
            (BufferData output_buffer)
            (new_filename file selected_format)
            ("audio/" +:+ (if decide (selected_format = "mp3") then "mpeg" else "mp4")))
  else
    acc ← for_each (zip_one converter selected_format conversion_type (length files))
                   files (0, {| compression := ZIP_DEFLATED; entries := [] |});
    log separator;;
    log "BATCH SUCCESS: All files converted and zipped successfully!";;
    show (Success "All files converted and zipped successfully!");;
    show (DownloadButton "Download All as ZIP" (ArchiveData acc.2)
            "converted_audio.zip" "application/zip").

(** Lines 265-267: the handler of [except Exception as e]. *)
Definition report (e : Exn) : M World unit :=
  log ("ERROR: An unexpected error occurred: " +:+ exn_msg e);;
  show (Error ("An error occurred during conversion: " +:+ exn_msg e)).

(** [process_files(files)]. *)
Definition process_files (files : list UploadedFile) : M World unit :=
  modify (set_logs []);;
  selected_format ← gets session_format;
  conversion_type ← gets session_type;
  log ("BATCH START: Initializing conversion for "
       +:+ Py.str_of_nat (length files) +:+ " file(s).");;
  match selected_format, conversion_type with
  | Some selected_format, Some conversion_type =>
      log ("BATCH INFO: Target format: " +:+ Py.upper selected_format
           +:+ ", Type: " +:+ Py.upper conversion_type +:+ ".");;
      try_except (convert_all files selected_format conversion_type)
                 any_exception report
  | _, _ => raise none_upper
  end.

(** Truth value of a session entry: neither [None] nor empty. *)
Definition truthy (x : option string) : bool :=
  match x with
  | Some s => negb (String.eqb s "")
  | None => false
  end.

(** Lines 199-208 of [configure_converter_ui]: step 3, the convert
    button.  [clicked] is what [st.button] returns for it. *)
Definition configure_converter_ui (clicked : bool) (uploaded_files : list UploadedFile)
    : M World unit :=
  fmt ← gets session_format;
  type ← gets session_type;
  if truthy fmt && truthy type then
    if clicked then
      match uploaded_files with
      | _ :: _ => process_files uploaded_files
      | [] => show (Warning "Can't make something out of nothing.")
      end
    else mret tt
  else mret tt.

End Driver.

(** ** Reading the outcome *)

(** What one file converts to, on its own: the result of [process] at
    the driver's bitrate, from an empty log. *)
Definition converted (B : Backend) (converter : Converter) (conversion_type : string)
    (file : UploadedFile) : Result BytesIO :=
  (process B converter (file_data file) 320 conversion_type (name file) []).1.

(** The track-number contract in words: split on [/]; the first segment
    is the track index; the second, when there is one, the total, else
    0; later segments are not looked at. *)
Definition parse_track (v : string) : option (Z * Z) :=
  match Py.split "/" v with
  | first :: more =>
      track ← Py.int first;
      total ← match more with
              | second :: _ => Py.int second
              | [] => Some 0%Z
              end;
      Some (track, total)
  | [] => None
  end.

Definition track_warning (v : string) : string :=
  "WARNING: Could not parse track number '" +:+ v +:+ "'. Skipping.".

(** An error line of the log. *)
Definition is_error_line (line : string) : bool := String.prefix "ERROR:" line.

(** The keys both tag maps recognise. *)
Definition recognized_keys : list string :=
  ["artist"; "album"; "title"; "tracknumber"; "date"; "genre"].

(** [m] treats the log as a logger: it only appends, what it appends
    and what it returns do not depend on what the log already holds,
    and every line it appends satisfies [P]. *)
Definition appends {A} (P : string -> Prop) (m : M Log A) : Prop :=
  (∀ l, m l = ((m []).1, l ++ (m []).2)) ∧ Forall P (m []).2.

(** [m1] and [m2] return or raise the same, whatever the logs. *)
Definition same_result {A} (m1 m2 : M Log A) : Prop :=
  ∀ l1 l2, (m1 l1).1 = (m2 l2).1.

(** [w] after [added] was logged and [made] was called. *)
Definition extend (added : Log) (made : list Call) (w : World) : World :=
  {| session_format := session_format w; session_type := session_type w;
     session_logs := session_logs w ++ added; ui := ui w;
     calls := calls w ++ made |}.

Definition not_error (line : string) : Prop := is_error_line line = false.

(** The two lines [process_files] logs before it enters its [try]. *)
Definition batch_header (files : list UploadedFile) (selected_format conversion_type : string)
    : Log :=
  ["BATCH START: Initializing conversion for "
     +:+ Py.str_of_nat (length files) +:+ " file(s).";
   "BATCH INFO: Target format: " +:+ Py.upper selected_format
     +:+ ", Type: " +:+ Py.upper conversion_type +:+ "."].

(** The log line and the message of the handler of [process_files]. *)
Definition error_line (e : Exn) : string :=
  "ERROR: An unexpected error occurred: " +:+ exn_msg e.

Definition error_message (e : Exn) : UiEvent :=
  Error ("An error occurred during conversion: " +:+ exn_msg e).

Definition unknown_format : Exn :=
  {| exn_class := ValueError; exn_msg := "Unknown format specified" |}.

(** ** A small backend to run the program on *)

Module Demo.

(** A stand-in for pydub and mutagen: every source buffer that is not
    empty is a FLAC file carrying [meta]; the samples are the content;
    encoding writes them to a fresh buffer; saving the tags rewrites the
    buffer from its start, one byte per tag in front of the audio. *)
Definition invalid : Exn :=
  {| exn_class := LibraryError; exn_msg := "not a valid FLAC file" |}.

Definition read_flac (meta : FLAC) (b : BytesIO) : Result FLAC :=
  match getvalue b with
  | [] => Raise invalid
  | _ :: _ => Ok meta
  end.

Definition decode (b : BytesIO) : Result bytes :=
  match getvalue b with
  | [] => Raise invalid
  | _ :: _ => Ok (getvalue b)
  end.

Definition encode (audio : bytes) (format : string) (parameters : list string)
    : Result BytesIO :=
  Ok (write {| getvalue := []; tell := 0 |} audio).

Definition save {T} (tags : list T) (b : BytesIO) : Result BytesIO :=
  Ok (write (seek b 0) (replicate (length tags) Byte.x01 ++ getvalue b)).

Definition backend (meta : FLAC) : Backend :=
  {| AudioSegment := bytes;
     MP3 := unit;
     MP4 := unit;
     flac_open := read_flac meta;
     from_file := decode;
     duration_text := λ _, "0.00";
     export := encode;
     mp3_open := λ _, Ok tt;
     mp3_has_tags := λ _, true;
     mp3_save := λ _, save;
     mp4_open := λ _, Ok tt;
     mp4_check := λ _ _, None;
     mp4_save := λ _, save |}.

Definition no_tags : FLAC := {| items := []; pictures := [] |}.

Definition song (n : string) : UploadedFile :=
  {| name := n; file_data := {| getvalue := [Byte.x66; Byte.x4c]; tell := 0 |} |}.

Definition broken (n : string) : UploadedFile :=
  {| name := n; file_data := {| getvalue := []; tell := 0 |} |}.

Definition session (format type : string) : World :=
  {| session_format := Some format; session_type := Some type;
     session_logs := ["stale"]; ui := []; calls := [] |}.

End Demo.


(** ** The rest of the page *)

(** A value held in [st.session_state]. *)
Inductive SessionValue :=
  | SNone
  | SStr (s : string)
  | SLogs (l : list string).

(** [if key not in st.session_state: st.session_state[key] = value]. *)
Definition set_if_missing (key : string) (value : SessionValue)
    (state : gmap string SessionValue) : gmap string SessionValue :=
  match state !! key with
  | Some _ => state
  | None => <[key := value]> state
  end.

(** Lines 133-138 of [main]: the session entries the page relies on. *)
Definition init_session_state (state : gmap string SessionValue)
    : gmap string SessionValue :=
  set_if_missing "logs" (SLogs [])
    (set_if_missing "type" SNone (set_if_missing "format" SNone state)).

(** Lines 140-142: the callback of the option buttons. *)
Definition select_option (format type : string) (state : gmap string SessionValue)
    : gmap string SessionValue :=
  <["type" := SStr type]> (<["format" := SStr format]> state).

(** Lines 189-197: the six option buttons, each with its [key] and the
    [args] of its callback. *)
Definition option_buttons : list (string * (string * string)) :=
  [("cbr_m4a", ("m4a", "cbr")); ("vbr_m4a", ("m4a", "vbr")); ("abr_m4a", ("m4a", "abr"));
   ("cbr_mp3", ("mp3", "cbr")); ("vbr_mp3", ("mp3", "vbr")); ("abr_mp3", ("mp3", "abr"))].

(** The session entries as the driver reads them. *)
Definition session_string (state : gmap string SessionValue) (key : string)
    : option string :=
  match state !! key with
  | Some (SStr s) => Some s
  | _ => None
  end.

Definition world_of (state : gmap string SessionValue) (shown : list UiEvent)
    (made : list Call) : World :=
  {| session_format := session_string state "format";
     session_type := session_string state "type";
     session_logs := match state !! "logs" with
                     | Some (SLogs l) => l
                     | _ => []
                     end;
     ui := shown;
     calls := made |}.

(** [sep.join(lines)]. *)
Fixpoint join (sep : string) (lines : list string) : string :=
  match lines with
  | [] => ""
  | [line] => line
  | line :: rest => line +:+ sep +:+ join sep rest
  end.

Definition newline : ascii := "010"%char.

(** What the Logs tab shows. *)
Inductive LogsTab :=
  | Info (body : string)
  | Code (body : string) (language : string).

(** [display_logs()], as a function of [st.session_state.logs]. *)
Definition display_logs (logs : Log) : LogsTab :=
  match logs with
  | [] => Info "meow"
  | _ :: _ => Code (join (String newline "") logs) "log"
  end.

(** ** Reading the tags written *)

(** What [MP3_LAME.process] adds for one source tag. *)
Definition mp3_frame_of (item : string * list string) : option Frame :=
  cls ← mp3_tag_map !! Py.lower item.1;
  v ← head item.2;
  Some (TextFrame cls 3 v).

(** What [AAC_better.process] assigns for one source tag. *)
Definition mp4_atom_of (item : string * list string) : option (string * Mp4Value) :=
  atom ← mp4_tag_map !! Py.lower item.1;
  v ← head item.2;
  if decide (atom = "trkn")
  then numbers ← parse_track v; Some (atom, Mp4Pairs [numbers])
  else Some (atom, Mp4Text v).

(** The warning [AAC_better.process] logs for one source tag. *)
Definition mp4_warning_of (item : string * list string) : option string :=
  atom ← mp4_tag_map !! Py.lower item.1;
  v ← head item.2;
  if decide (atom = "trkn")
  then match parse_track v with
       | Some _ => None
       | None => Some (track_warning v)
       end
  else None.

(** A success line of the log. *)
Definition is_success_line (line : string) : bool := String.prefix "SUCCESS:" line.

Definition not_success (line : string) : Prop := is_success_line line = false.

(** [w1] is [w0] with more logged, shown and called, and the same
    selection. *)
Definition grows (w0 w1 : World) : Prop :=
  session_format w1 = session_format w0 ∧
  session_type w1 = session_type w0 ∧
  (∃ added, session_logs w1 = session_logs w0 ++ added) ∧
  (∃ shown, ui w1 = ui w0 ++ shown) ∧
  (∃ made, calls w1 = calls w0 ++ made).

(** [m] only adds to the log, to the page and to the calls. *)
Definition growing {A} (m : M World A) : Prop := ∀ w, grows w (m w).2.

(** A progress or warning line of a converter. *)
Definition progress_line (line : string) : Prop :=
  String.prefix "INFO: " line = true ∨ String.prefix "WARNING: " line = true.

(** When [m] raises, it has appended lines satisfying [P] only. *)
Definition raises_with {A} (P : string -> Prop) (m : M Log A) : Prop :=
  ∀ l e l', m l = (Raise e, l') -> ∃ added, l' = l ++ added ∧ Forall P added.

(** * Properties *)

(** ** The monad *)

Lemma bind_run {S A C} (m : M S A) (k : A -> M S C) (s : S) :
  (m ≫= k) s = match m s with
               | (Ok a, s') => k a s'
               | (Raise e, s') => (Raise e, s')
               end.
Proof. reflexivity. Qed.

Lemma for_each_app {S A X} (body : A -> X -> M S A) (xs ys : list X) (acc : A) (s : S) :
  for_each body (xs ++ ys) acc s =
  match for_each body xs acc s with
  | (Ok acc', s') => for_each body ys acc' s'
  | (Raise e, s') => (Raise e, s')
  end.
Proof.
  revert acc s. induction xs as [|x xs IH]; intros acc s; [reflexivity|].
  cbn [for_each app]. rewrite !bind_run.
  destruct (body acc x s) as [[acc'|e] s']; [apply IH | reflexivity].
Qed.

Section Appends.
Context {P : string -> Prop}.

Lemma appends_ret {A} (a : A) : appends P (mret a).
Proof. split; [intros l; cbn; by rewrite app_nil_r | constructor]. Qed.

Lemma appends_raise {A} (e : Exn) : appends P (@raise Log A e).
Proof. split; [intros l; cbn; by rewrite app_nil_r | constructor]. Qed.

Lemma appends_lift_result {A} (r : Result A) : appends P (lift_result r).
Proof. split; [intros l; cbn; by rewrite app_nil_r | constructor]. Qed.

Lemma appends_append (line : string) : P line -> appends P (append line).
Proof. intros H. split; [by intros l | by repeat constructor]. Qed.

Lemma appends_bind {A C} (m : M Log A) (k : A -> M Log C) :
  appends P m -> (∀ a, appends P (k a)) -> appends P (m ≫= k).
Proof.
  intros [Hm Pm] Hk. split.
  - intros l. rewrite !bind_run, (Hm l).
    destruct (m []) as [[a|e] w]; cbn [fst snd] in *; [|reflexivity].
    destruct (Hk a) as [Hka _]. rewrite (Hka (l ++ w)), (Hka w).
    cbn [fst snd]. by rewrite app_assoc.
  - rewrite bind_run. destruct (m []) as [[a|e] w]; cbn [fst snd] in *; [|done].
    destruct (Hk a) as [Hka Pka]. rewrite (Hka w). cbn [snd].
    by apply Forall_app.
Qed.

Lemma appends_try_except {A} (body : M Log A) caught (handler : Exn -> M Log A) :
  appends P body -> (∀ e, appends P (handler e)) ->
  appends P (try_except body caught handler).
Proof.
  intros [Hm Pm] Hk. unfold try_except. split.
  - intros l. rewrite (Hm l).
    destruct (body []) as [[a|e] w]; cbn [fst snd] in *; [reflexivity|].
    destruct (caught (exn_class e)); [|reflexivity].
    destruct (Hk e) as [Hke _]. rewrite (Hke (l ++ w)), (Hke w).
    cbn [fst snd]. by rewrite app_assoc.
  - destruct (body []) as [[a|e] w]; cbn [fst snd] in *; [done|].
    destruct (caught (exn_class e)); [|done].
    destruct (Hk e) as [Hke Pke]. rewrite (Hke w). cbn [snd].
    by apply Forall_app.
Qed.

Lemma appends_for_each {A X} (body : A -> X -> M Log A) (xs : list X) (acc : A) :
  (∀ a x, appends P (body a x)) -> appends P (for_each body xs acc).
Proof.
  intros Hb. revert acc. induction xs as [|x xs IH]; intros acc; cbn [for_each].
  - apply appends_ret.
  - apply appends_bind; [apply Hb | intros a; apply IH].
Qed.

Lemma appends_index {A} (l : list A) (i : nat) : appends P (index l i).
Proof. unfold index. destruct (l !! i); [apply appends_ret | apply appends_raise]. Qed.

Lemma appends_py_int (s : string) : appends P (py_int s).
Proof. unfold py_int. destruct (Py.int s); [apply appends_ret | apply appends_raise]. Qed.

End Appends.

Lemma appends_result {A} P (m : M Log A) (l : Log) :
  appends P m -> (m l).1 = (m []).1.
Proof. intros [H _]. by rewrite (H l). Qed.

Lemma appends_log {A} P (m : M Log A) (l : Log) :
  appends P m -> (m l).2 = l ++ (m []).2.
Proof. intros [H _]. by rewrite (H l). Qed.

Lemma same_result_bind {A C} (m1 m2 : M Log A) (k1 k2 : A -> M Log C) :
  same_result m1 m2 -> (∀ a, same_result (k1 a) (k2 a)) ->
  same_result (m1 ≫= k1) (m2 ≫= k2).
Proof.
  intros Hm Hk l1 l2. rewrite !bind_run. specialize (Hm l1 l2).
  destruct (m1 l1) as [r1 s1], (m2 l2) as [r2 s2]; cbn [fst] in Hm; subst r2.
  destruct r1; [apply Hk | reflexivity].
Qed.

Lemma same_result_refl {A} P (m : M Log A) : appends P m -> same_result m m.
Proof.
  intros H l1 l2.
  by rewrite (appends_result P m l1 H), (appends_result P m l2 H).
Qed.

(** ** The converters as loggers *)

Create HintDb loggers discriminated.

Ltac logger_step :=
  first
    [ solve [auto 1 with loggers nocore]
    | apply appends_ret
    | apply appends_raise
    | apply appends_lift_result
    | apply appends_index
    | apply appends_py_int
    | apply appends_append; reflexivity
    | apply appends_try_except; [|intros ?]
    | apply appends_for_each; intros ? ?
    | apply appends_bind; [|intros ?] ].

Ltac logger := repeat logger_step.

Section ConverterLogs.
Context (B : Backend).

Lemma MP3_LAME_parameters_appends bitrate conversion_type :
  appends not_error (MP3_LAME_parameters bitrate conversion_type).
Proof. unfold MP3_LAME_parameters. case_decide; logger. Qed.

Lemma AAC_better_parameters_appends bitrate conversion_type :
  appends not_error (AAC_better_parameters bitrate conversion_type).
Proof. unfold AAC_better_parameters. case_decide; logger. Qed.

Lemma mp3_tags_add_appends mp3_meta : appends not_error (mp3_tags_add B mp3_meta).
Proof. unfold mp3_tags_add. destruct (mp3_has_tags B mp3_meta); logger. Qed.
Hint Resolve MP3_LAME_parameters_appends AAC_better_parameters_appends
  mp3_tags_add_appends : loggers.

Lemma MP3_LAME_tag_appends mp3_meta frames item :
  appends not_error (MP3_LAME_tag B mp3_meta frames item).
Proof.
  destruct item as [key value]. unfold MP3_LAME_tag.
  destruct (mp3_tag_map !! Py.lower key); logger.
Qed.

Lemma MP3_LAME_picture_appends mp3_meta flac_meta frames :
  appends not_error (MP3_LAME_picture B mp3_meta flac_meta frames).
Proof. unfold MP3_LAME_picture. destruct (pictures flac_meta); logger. Qed.

Lemma mp4_setitem_appends atoms key value :
  appends not_error (mp4_setitem B atoms key value).
Proof. unfold mp4_setitem. destruct (mp4_check B key value); logger. Qed.
Hint Resolve MP3_LAME_tag_appends MP3_LAME_picture_appends
  mp4_setitem_appends : loggers.

Lemma AAC_better_track_appends atoms tag_key value :
  appends not_error (AAC_better_track B atoms tag_key value).
Proof. unfold AAC_better_track. logger. case_decide; logger. Qed.
Hint Resolve AAC_better_track_appends : loggers.

Lemma AAC_better_tag_appends atoms item :
  appends not_error (AAC_better_tag B atoms item).
Proof.
  destruct item as [key value]. unfold AAC_better_tag.
  destruct (mp4_tag_map !! Py.lower key); [case_decide|]; logger.
Qed.

Lemma AAC_better_picture_appends flac_meta atoms :
  appends not_error (AAC_better_picture B flac_meta atoms).
Proof. unfold AAC_better_picture. destruct (pictures flac_meta); logger. Qed.
Hint Resolve AAC_better_tag_appends AAC_better_picture_appends : loggers.

Lemma process_appends converter file_data bitrate conversion_type filename :
  appends not_error (process B converter file_data bitrate conversion_type filename).
Proof.
  destruct converter; cbn [process];
    [unfold MP3_LAME_process | unfold AAC_better_process]; logger.
Qed.

End ConverterLogs.

(** ** The driver's steps *)

Lemma extend_nil w : extend [] [] w = w.
Proof. destruct w. unfold extend. cbn. by rewrite !app_nil_r. Qed.

Lemma extend_extend a1 c1 a2 c2 w :
  extend a2 c2 (extend a1 c1 w) = extend (a1 ++ a2) (c1 ++ c2) w.
Proof. unfold extend. cbn. by rewrite !app_assoc. Qed.

Lemma log_run line w : log line w = (Ok tt, extend [line] [] w).
Proof. destruct w. unfold log, with_logger, extend, set_logs. cbn. by rewrite app_nil_r. Qed.

Lemma record_run c w : record c w = (Ok tt, extend [] [c] w).
Proof. destruct w. unfold record, modify, add_call, extend. cbn. by rewrite app_nil_r. Qed.

Lemma with_logger_run {A} P (m : M Log A) w :
  appends P m -> with_logger m w = ((m []).1, extend (m []).2 [] w).
Proof.
  intros [H _]. unfold with_logger. rewrite (H (session_logs w)).
  destruct w. unfold extend, set_logs. cbn. by rewrite app_nil_r.
Qed.

Section DriverSteps.
Context (B : Backend).

Lemma call_process_run converter file conversion_type w :
  call_process B converter file 320 conversion_type w =
  (converted B converter conversion_type file,
   extend (process B converter (file_data file) 320 conversion_type (name file) []).2
          [CallProcess converter (name file)] w).
Proof.
  unfold call_process. rewrite bind_run, record_run.
  rewrite (with_logger_run not_error) by apply process_appends.
  by rewrite extend_extend.
Qed.

Lemma process_lines converter file conversion_type :
  Forall not_error
    (process B converter (file_data file) 320 conversion_type (name file) []).2.
Proof. apply (process_appends B). Qed.

Lemma zip_one_run converter selected_format conversion_type total i zip_file file w :
  ∃ added, Forall not_error added ∧
    zip_one B converter selected_format conversion_type total (i, zip_file) file w =
    (match converted B converter conversion_type file with
     | Ok output_buffer =>
         Ok (S i, writestr zip_file (new_filename file selected_format)
                           (getvalue output_buffer))
     | Raise e => Raise e
     end,
     extend added [CallProcess converter (name file)] w).
Proof.
  eexists. split; last first.
  - unfold zip_one. cbv beta iota. rewrite bind_run, log_run. cbv beta iota.
    rewrite bind_run, log_run. cbv beta iota.
    rewrite bind_run, call_process_run, !extend_extend. cbn [app].
    destruct (converted B converter conversion_type file); reflexivity.
  - repeat (apply Forall_cons; split; [reflexivity|]). apply process_lines.
Qed.

(** Every file converts: the loop writes one entry per file, in order. *)
Lemma zip_all_ok converter selected_format conversion_type total files outputs :
  Forall2 (λ file out, converted B converter conversion_type file = Ok out) files outputs ->
  ∀ i zip_file w, ∃ added, Forall not_error added ∧
    for_each (zip_one B converter selected_format conversion_type total) files (i, zip_file) w =
    (Ok (i + length files,
         {| compression := compression zip_file;
            entries := entries zip_file ++
              zip (map (λ file, new_filename file selected_format) files)
                  (map getvalue outputs) |}),
     extend added (map (λ file, CallProcess converter (name file)) files) w).
Proof.
  induction 1 as [|file out files outputs Hfile _ IH]; intros i zip_file w.
  - exists []. split; [constructor|]. cbn. rewrite extend_nil, Nat.add_0_r, app_nil_r.
    by destruct zip_file.
  - destruct (zip_one_run converter selected_format conversion_type total i zip_file file w)
      as (added1 & P1 & E1).
    rewrite Hfile in E1. cbn [for_each]. rewrite bind_run, E1.
    edestruct IH as (added2 & P2 & E2). rewrite E2, extend_extend.
    exists (added1 ++ added2). split; [by apply Forall_app|].
    cbn. by rewrite Nat.add_succ_r, <- app_assoc.
Qed.

(** A file fails: the loop raises at the first such file. *)
Lemma zip_first_failure converter selected_format conversion_type total
    finished outputs bad rest e :
  Forall2 (λ file out, converted B converter conversion_type file = Ok out)
          finished outputs ->
  converted B converter conversion_type bad = Raise e ->
  ∀ i zip_file w, ∃ added, Forall not_error added ∧
    for_each (zip_one B converter selected_format conversion_type total)
             (finished ++ bad :: rest) (i, zip_file) w =
    (Raise e,
     extend added (map (λ file, CallProcess converter (name file)) (finished ++ [bad])) w).
Proof.
  intros Hok Hbad i zip_file w. rewrite for_each_app.
  destruct (zip_all_ok converter selected_format conversion_type total _ _ Hok i zip_file w)
    as (added1 & P1 & ->).
  cbn [for_each]. rewrite bind_run.
  edestruct zip_one_run as (added2 & P2 & ->). rewrite Hbad, extend_extend.
  exists (added1 ++ added2). split; [by apply Forall_app|].
  by rewrite map_app.
Qed.

End DriverSteps.

(** ** The batch driver *)

Lemma show_run e w : show e w = (Ok tt, add_ui e w).
Proof. reflexivity. Qed.

Lemma report_run e w :
  report e w = (Ok tt, add_ui (error_message e) (extend [error_line e] [] w)).
Proof. unfold report. by rewrite bind_run, log_run. Qed.

Lemma get_converter_supported format :
  get_converter format =
  if decide (format = "mp3") then Ok MP3_LAME
  else if decide (format = "m4a") then Ok AAC_better
  else Raise unknown_format.
Proof. reflexivity. Qed.

Lemma get_converter_unsupported format :
  format ≠ "mp3" -> format ≠ "m4a" -> get_converter format = Raise unknown_format.
Proof. intros H1 H2. unfold get_converter. by rewrite !decide_False. Qed.

Section Batch.
Context (B : Backend).

(** With both options selected, [process_files] resets the log, writes
    the header and runs its [try] block under its handler. *)
Lemma process_files_run files selected_format conversion_type w :
  session_format w = Some selected_format ->
  session_type w = Some conversion_type ->
  process_files B files w =
  try_except (convert_all B files selected_format conversion_type) any_exception report
    {| session_format := Some selected_format; session_type := Some conversion_type;
       session_logs := batch_header files selected_format conversion_type;
       ui := ui w; calls := calls w |}.
Proof.
  destruct w as [sf sty lg u cl]. cbn. intros -> ->. reflexivity.
Qed.

Lemma convert_all_unsupported files selected_format conversion_type e w :
  get_converter selected_format = Raise e ->
  convert_all B files selected_format conversion_type w =
  (Raise e, extend [] [CallGetConverter selected_format] w).
Proof.
  intros H. unfold convert_all. rewrite bind_run, record_run. cbv beta iota.
  rewrite bind_run. unfold lift_result. by rewrite H.
Qed.

End Batch.

Section BatchOutcome.
Context (B : Backend).

(** One file, which converts: the bare buffer is offered for download. *)
Lemma convert_all_single file out selected_format conversion_type converter w :
  get_converter selected_format = Ok converter ->
  converted B converter conversion_type file = Ok out ->
  ∃ added, Forall not_error added ∧
    convert_all B [file] selected_format conversion_type w =
    (Ok tt,
     add_ui (DownloadButton ("Download " +:+ Py.upper selected_format)
               (BufferData out) (new_filename file selected_format)
               ("audio/" +:+ (if decide (selected_format = "mp3") then "mpeg" else "mp4")))
       (add_ui (Success ("Conversion of '" +:+ name file +:+ "' successful!"))
          (extend added [CallGetConverter selected_format;
                         CallProcess converter (name file)]
             (add_ui (Spinner "Converting 1 file(s)...") w)))).
Proof.
  intros Hc Hout.
  exists (process B converter (file_data file) 320 conversion_type (name file) []).2.
  split; [apply process_lines|].
  unfold convert_all. rewrite bind_run, record_run. cbv beta iota.
  rewrite bind_run. unfold lift_result at 1. rewrite Hc. cbv beta iota.
  rewrite bind_run, show_run. cbv beta iota. cbn [length decide].
  rewrite decide_True by done. rewrite bind_run. cbn [index lookup list_lookup].
  unfold mret at 1, M_ret at 1. cbv beta iota.
  rewrite bind_run, call_process_run, Hout. cbv beta iota.
  rewrite bind_run, show_run. cbv beta iota. rewrite show_run.
  destruct w. unfold add_ui, extend. cbn. by rewrite !app_nil_r, <- ?app_assoc.
Qed.

(** One file, which fails. *)
Lemma convert_all_single_failure file e selected_format conversion_type converter w :
  get_converter selected_format = Ok converter ->
  converted B converter conversion_type file = Raise e ->
  ∃ added, Forall not_error added ∧
    convert_all B [file] selected_format conversion_type w =
    (Raise e,
     extend added [CallGetConverter selected_format; CallProcess converter (name file)]
       (add_ui (Spinner "Converting 1 file(s)...") w)).
Proof.
  intros Hc Hout.
  exists (process B converter (file_data file) 320 conversion_type (name file) []).2.
  split; [apply process_lines|].
  unfold convert_all. rewrite bind_run, record_run. cbv beta iota.
  rewrite bind_run. unfold lift_result at 1. rewrite Hc. cbv beta iota.
  rewrite bind_run, show_run. cbv beta iota. cbn [length decide].
  rewrite decide_True by done. rewrite bind_run. cbn [index lookup list_lookup].
  unfold mret at 1, M_ret at 1. cbv beta iota.
  rewrite bind_run, call_process_run, Hout.
  destruct w. unfold add_ui, extend. cbn. by rewrite !app_nil_r, <- ?app_assoc.
Qed.

(** Not one file, all of which convert: one archive is offered. *)
Lemma convert_all_archive files outputs selected_format conversion_type converter w :
  get_converter selected_format = Ok converter ->
  length files ≠ 1 ->
  Forall2 (λ file out, converted B converter conversion_type file = Ok out) files outputs ->
  ∃ added, Forall not_error added ∧
    convert_all B files selected_format conversion_type w =
    (Ok tt,
     add_ui (DownloadButton "Download All as ZIP"
               (ArchiveData
                  {| compression := ZIP_DEFLATED;
                     entries := zip (map (λ file, new_filename file selected_format) files)
                                    (map getvalue outputs) |})
               "converted_audio.zip" "application/zip")
       (add_ui (Success "All files converted and zipped successfully!")
          (extend added
             (CallGetConverter selected_format
                :: map (λ file, CallProcess converter (name file)) files)
             (add_ui (Spinner ("Converting " +:+ Py.str_of_nat (length files)
                               +:+ " file(s)...")) w)))).
Proof.
  intros Hc Hlen Hall.
  edestruct (zip_all_ok B converter selected_format conversion_type (length files)
               files outputs Hall 0 {| compression := ZIP_DEFLATED; entries := [] |})
    as (added & Padded & E).
  exists (added ++ [separator;
                    "BATCH SUCCESS: All files converted and zipped successfully!"]).
  split; [apply Forall_app; split; [done | by repeat constructor]|].
  unfold convert_all. rewrite bind_run, record_run. cbv beta iota.
  rewrite bind_run. unfold lift_result at 1. rewrite Hc. cbv beta iota.
  rewrite bind_run, show_run. cbv beta iota.
  rewrite decide_False by done. rewrite bind_run, E. cbv beta iota.
  rewrite bind_run, log_run. cbv beta iota. rewrite bind_run, log_run. cbv beta iota.
  rewrite bind_run, show_run. cbv beta iota. rewrite show_run.
  destruct w. unfold add_ui, extend. cbn. by rewrite ?app_nil_r, <- ?app_assoc.
Qed.

(** Not one file, one of which fails. *)
Lemma convert_all_archive_failure finished outputs bad rest e
    selected_format conversion_type converter w :
  get_converter selected_format = Ok converter ->
  length (finished ++ bad :: rest) ≠ 1 ->
  Forall2 (λ file out, converted B converter conversion_type file = Ok out)
          finished outputs ->
  converted B converter conversion_type bad = Raise e ->
  ∃ added, Forall not_error added ∧
    convert_all B (finished ++ bad :: rest) selected_format conversion_type w =
    (Raise e,
     extend added
       (CallGetConverter selected_format
          :: map (λ file, CallProcess converter (name file)) (finished ++ [bad]))
       (add_ui (Spinner ("Converting " +:+ Py.str_of_nat (length (finished ++ bad :: rest))
                         +:+ " file(s)...")) w)).
Proof.
  intros Hc Hlen Hall Hbad.
  edestruct (zip_first_failure B converter selected_format conversion_type
               (length (finished ++ bad :: rest)) finished outputs bad rest e Hall Hbad
               0 {| compression := ZIP_DEFLATED; entries := [] |})
    as (added & Padded & E).
  exists added. split; [done|].
  unfold convert_all. rewrite bind_run, record_run. cbv beta iota.
  rewrite bind_run. unfold lift_result at 1. rewrite Hc. cbv beta iota.
  rewrite bind_run, show_run. cbv beta iota.
  rewrite decide_False by done. rewrite bind_run, E.
  destruct w. unfold add_ui, extend. cbn. by rewrite ?app_nil_r, <- ?app_assoc.
Qed.

End BatchOutcome.

(** ** The claims about the batch driver *)

(** C3.  With a supported format selected and every file converting,
    [process_files] offers exactly one download.  For a single file it
    is the bare output buffer, named with the stem of the upload's name
    and the target format as extension; for more than one file it is
    one archive, compressed with deflate, under the fixed name
    [converted_audio.zip], holding one entry per upload in upload
    order, each named by the same rule and holding that file's output. *)
Theorem batch_single_or_archive B files outputs selected_format conversion_type converter w :
  session_format w = Some selected_format ->
  session_type w = Some conversion_type ->
  get_converter selected_format = Ok converter ->
  Forall2 (λ file out, converted B converter conversion_type file = Ok out) files outputs ->
  ∃ w', process_files B files w = (Ok tt, w') ∧
    (∀ file out, files = [file] -> outputs = [out] ->
       ui w' = ui w ++
         [Spinner "Converting 1 file(s)...";
          Success ("Conversion of '" +:+ name file +:+ "' successful!");
          DownloadButton ("Download " +:+ Py.upper selected_format) (BufferData out)
            (Py.rsplit1_head "." (name file) +:+ "." +:+ selected_format)
            ("audio/" +:+ (if decide (selected_format = "mp3") then "mpeg" else "mp4"))]) ∧
    (1 < length files ->
       ∃ archive,
         ui w' = ui w ++
           [Spinner ("Converting " +:+ Py.str_of_nat (length files) +:+ " file(s)...");
            Success "All files converted and zipped successfully!";
            DownloadButton "Download All as ZIP" (ArchiveData archive)
              "converted_audio.zip" "application/zip"] ∧
         compression archive = ZIP_DEFLATED ∧
         length (entries archive) = length files ∧
         (entries archive).*1 =
           map (λ file, Py.rsplit1_head "." (name file) +:+ "." +:+ selected_format) files ∧
         (entries archive).*2 = map getvalue outputs).
Proof.
  intros Hf Ht Hc Hall.
  rewrite (process_files_run B files selected_format conversion_type w Hf Ht).
  unfold try_except.
  destruct (decide (length files = 1)) as [Hone|Hmany].
  - destruct files as [|file [|? ?]]; try discriminate Hone.
    apply Forall2_cons_inv_l in Hall as (out & outs & Hout & Hnil & ->).
    apply Forall2_nil_inv_l in Hnil as ->.
    edestruct (convert_all_single B file out selected_format conversion_type converter)
      as (added & _ & ->); [done..|].
    eexists. split; [reflexivity|]. split.
    + intros file' out' [= <-] [= <-]. cbn. by rewrite <- !app_assoc.
    + cbn. lia.
  - edestruct (convert_all_archive B files outputs selected_format conversion_type converter)
      as (added & _ & ->); [done..|].
    eexists. split; [reflexivity|]. split.
    + intros file out ->. done.
    + intros _. eexists. split; [cbn; by rewrite <- !app_assoc|].
      cbn [compression entries].
      pose proof (Forall2_length _ _ _ Hall) as Hlen.
      split; [done|]. split; [|split].
      * rewrite length_zip_with, !length_map. lia.
      * rewrite fst_zip; [done|]. rewrite !length_map. lia.
      * rewrite snd_zip; [done|]. rewrite !length_map. lia.
Qed.

(** C4 as stated fails on the log: for the format [ogg] the log holds
    the two header lines of the batch before the rejection, not the
    rejection alone. *)
Lemma unsupported_format_log_counterexample :
  let w' := (process_files (Demo.backend Demo.no_tags) [Demo.song "a.flac"]
                           (Demo.session "ogg" "cbr")).2 in
  get_converter "ogg" = Raise unknown_format ∧
  session_logs w' =
    ["BATCH START: Initializing conversion for 1 file(s).";
     "BATCH INFO: Target format: OGG, Type: CBR.";
     "ERROR: An unexpected error occurred: Unknown format specified"] ∧
  session_logs w' ≠ ["ERROR: An unexpected error occurred: Unknown format specified"].
Proof. split; [reflexivity|]. split; [reflexivity|]. discriminate. Qed.

(** C4, amended.  For a format other than [mp3] and [m4a] the factory
    raises; [process_files] catches it: nothing is offered for
    download, no converter is called, and the log holds the two header
    lines of the batch followed by the one error line of the rejection. *)
Theorem unsupported_format_rejected B files selected_format conversion_type w :
  session_format w = Some selected_format ->
  session_type w = Some conversion_type ->
  selected_format ≠ "mp3" ->
  selected_format ≠ "m4a" ->
  get_converter selected_format = Raise unknown_format ∧
  process_files B files w =
    (Ok tt,
     {| session_format := Some selected_format;
        session_type := Some conversion_type;
        session_logs := batch_header files selected_format conversion_type
                        ++ ["ERROR: An unexpected error occurred: Unknown format specified"];
        ui := ui w ++ [Error "An error occurred during conversion: Unknown format specified"];
        calls := calls w ++ [CallGetConverter selected_format] |}).
Proof.
  intros Hf Ht H3 H4.
  pose proof (get_converter_unsupported selected_format H3 H4) as Hraise.
  split; [done|].
  rewrite (process_files_run B files selected_format conversion_type w Hf Ht).
  unfold try_except.
  rewrite (convert_all_unsupported B files selected_format conversion_type unknown_format)
    by done.
  cbn [exn_class unknown_format any_exception]. rewrite report_run.
  unfold add_ui, extend. cbn. by rewrite !app_nil_r.
Qed.

Lemma unsupported_format_rejected_witness :
  process_files (Demo.backend Demo.no_tags) [Demo.song "a.flac"; Demo.song "b.flac"]
                (Demo.session "ogg" "vbr") =
    (Ok tt,
     {| session_format := Some "ogg";
        session_type := Some "vbr";
        session_logs :=
          ["BATCH START: Initializing conversion for 2 file(s).";
           "BATCH INFO: Target format: OGG, Type: VBR.";
           "ERROR: An unexpected error occurred: Unknown format specified"];
        ui := [Error "An error occurred during conversion: Unknown format specified"];
        calls := [CallGetConverter "ogg"] |}).
Proof.
  apply (unsupported_format_rejected (Demo.backend Demo.no_tags)
           [Demo.song "a.flac"; Demo.song "b.flac"] "ogg" "vbr" (Demo.session "ogg" "vbr"));
    [reflexivity | reflexivity | discriminate | discriminate].
Defined.

Lemma batch_single_or_archive_witness :
  (∃ w', process_files (Demo.backend Demo.no_tags) [Demo.song "a.flac"]
                       (Demo.session "mp3" "vbr") = (Ok tt, w') ∧
     ui w' = [Spinner "Converting 1 file(s)...";
              Success "Conversion of 'a.flac' successful!";
              DownloadButton "Download MP3"
                (BufferData {| getvalue := [Byte.x66; Byte.x4c]; tell := 2 |})
                "a.mp3" "audio/mpeg"]) ∧
  (∃ w' archive,
     process_files (Demo.backend Demo.no_tags)
                   [Demo.song "a.flac"; Demo.song "b.c.flac"]
                   (Demo.session "m4a" "cbr") = (Ok tt, w') ∧
     ui w' = [Spinner "Converting 2 file(s)...";
              Success "All files converted and zipped successfully!";
              DownloadButton "Download All as ZIP" (ArchiveData archive)
                "converted_audio.zip" "application/zip"] ∧
     compression archive = ZIP_DEFLATED ∧
     (entries archive).*1 = ["a.m4a"; "b.c.m4a"]).
Proof.
  split.
  - destruct (batch_single_or_archive (Demo.backend Demo.no_tags)
                [Demo.song "a.flac"]
                [{| getvalue := [Byte.x66; Byte.x4c]; tell := 2 |}]
                "mp3" "vbr" MP3_LAME (Demo.session "mp3" "vbr")
                eq_refl eq_refl eq_refl)
      as (w' & E & Hone & _).
    + repeat constructor.
    + exists w'. split; [exact E|]. exact (Hone _ _ eq_refl eq_refl).
  - destruct (batch_single_or_archive (Demo.backend Demo.no_tags)
                [Demo.song "a.flac"; Demo.song "b.c.flac"]
                [{| getvalue := [Byte.x66; Byte.x4c]; tell := 2 |};
                 {| getvalue := [Byte.x66; Byte.x4c]; tell := 2 |}]
                "m4a" "cbr" AAC_better (Demo.session "m4a" "cbr")
                eq_refl eq_refl eq_refl)
      as (w' & E & _ & Hmany).
    + repeat constructor.
    + destruct Hmany as (archive & Hui & Hc & _ & Hnames & _); [cbn; lia|].
      exists w', archive. split; [exact E|]. split; [exact Hui|].
      split; [exact Hc | exact Hnames].
Defined.

(** C5.  With a supported format selected, when the conversion of a
    file raises, [process_files] itself does not raise: its handler
    runs once, the log ends with the one error line (no line before it
    is an error line), the page shows the one error message after the
    spinner, and nothing is offered for download, whatever the files
    before the failing one converted to; the files after it are never
    processed. *)
Theorem batch_discarded_on_failure B finished outputs bad rest e
    selected_format conversion_type converter w :
  session_format w = Some selected_format ->
  session_type w = Some conversion_type ->
  get_converter selected_format = Ok converter ->
  Forall2 (λ file out, converted B converter conversion_type file = Ok out)
          finished outputs ->
  converted B converter conversion_type bad = Raise e ->
  let files := finished ++ bad :: rest in
  ∃ w' earlier,
    process_files B files w = (Ok tt, w') ∧
    session_logs w' = earlier ++ ["ERROR: An unexpected error occurred: " +:+ exn_msg e] ∧
    Forall (λ line, is_error_line line = false) earlier ∧
    is_error_line ("ERROR: An unexpected error occurred: " +:+ exn_msg e) = true ∧
    ui w' = ui w ++
      [Spinner ("Converting " +:+ Py.str_of_nat (length files) +:+ " file(s)...");
       Error ("An error occurred during conversion: " +:+ exn_msg e)] ∧
    calls w' = calls w ++
      CallGetConverter selected_format
        :: map (λ file, CallProcess converter (name file)) (finished ++ [bad]).
Proof.
  intros Hf Ht Hc Hall Hbad files.
  rewrite (process_files_run B files selected_format conversion_type w Hf Ht).
  unfold try_except.
  set (w0 := {| session_format := Some selected_format;
                session_type := Some conversion_type;
                session_logs := batch_header files selected_format conversion_type;
                ui := ui w; calls := calls w |}).
  assert (∃ added, Forall not_error added ∧
            convert_all B files selected_format conversion_type w0 =
              (Raise e,
               extend added
                 (CallGetConverter selected_format
                    :: map (λ file, CallProcess converter (name file)) (finished ++ [bad]))
                 (add_ui (Spinner ("Converting " +:+ Py.str_of_nat (length files)
                                   +:+ " file(s)...")) w0)))
    as (added & Padded & E).
  { destruct (decide (length files = 1)) as [Hone|Hmany].
    - subst files. destruct finished as [|f1 finished].
      + destruct rest; [|discriminate Hone].
        apply (convert_all_single_failure B bad e selected_format conversion_type
                 converter w0 Hc Hbad).
      + cbn in Hone. rewrite length_app in Hone. cbn in Hone. lia.
    - apply (convert_all_archive_failure B finished outputs bad rest e
               selected_format conversion_type converter w0 Hc Hmany Hall Hbad). }
  rewrite E. cbn [exn_class any_exception]. rewrite report_run.
  eexists _, (batch_header files selected_format conversion_type ++ added).
  split; [reflexivity|]. split; [cbn; by rewrite ?app_nil_r, <- ?app_assoc|].
  split; [apply Forall_app; split; [by repeat constructor | done]|].
  split; [reflexivity|]. split; [cbn; by rewrite ?app_nil_r, <- ?app_assoc|].
  cbn. by rewrite ?app_nil_r.
Qed.

Lemma batch_discarded_on_failure_witness :
  ∃ w' earlier,
    process_files (Demo.backend Demo.no_tags)
      [Demo.song "a.flac"; Demo.broken "b.flac"; Demo.song "c.flac"]
      (Demo.session "mp3" "abr") = (Ok tt, w') ∧
    session_logs w' =
      earlier ++ ["ERROR: An unexpected error occurred: not a valid FLAC file"] ∧
    Forall (λ line, is_error_line line = false) earlier ∧
    ui w' = [Spinner "Converting 3 file(s)...";
             Error "An error occurred during conversion: not a valid FLAC file"] ∧
    calls w' = [CallGetConverter "mp3"; CallProcess MP3_LAME "a.flac";
                CallProcess MP3_LAME "b.flac"].
Proof.
  destruct (batch_discarded_on_failure (Demo.backend Demo.no_tags)
              [Demo.song "a.flac"]
              [{| getvalue := [Byte.x66; Byte.x4c]; tell := 2 |}]
              (Demo.broken "b.flac") [Demo.song "c.flac"] Demo.invalid
              "mp3" "abr" MP3_LAME (Demo.session "mp3" "abr")
              eq_refl eq_refl eq_refl)
    as (w' & earlier & E & Hlog & Hearlier & _ & Hui & Hcalls).
  - repeat constructor.
  - reflexivity.
  - exists w', earlier. split; [exact E|]. split; [exact Hlog|].
    split; [exact Hearlier|]. split; [exact Hui | exact Hcalls].
Defined.

(** C7.  With no file uploaded, the convert step of
    [configure_converter_ui] never reaches [process_files]: it shows the
    warning when the button is enabled and clicked and does nothing
    otherwise; either way no call to [get_converter] or to a converter's
    [process] is made and the log is left as it was. *)
Theorem empty_upload_rejected B clicked w :
  let after := configure_converter_ui B clicked [] w in
  after =
    (Ok tt,
     if truthy (session_format w) && truthy (session_type w) && clicked
     then add_ui (Warning "Can't make something out of nothing.") w
     else w) ∧
  calls after.2 = calls w ∧
  session_logs after.2 = session_logs w.
Proof.
  intros after.
  assert (after =
          (Ok tt,
           if truthy (session_format w) && truthy (session_type w) && clicked
           then add_ui (Warning "Can't make something out of nothing.") w
           else w)) as ->.
  { subst after. unfold configure_converter_ui. rewrite bind_run. unfold gets at 1.
    cbv beta iota. rewrite bind_run. unfold gets at 1. cbv beta iota.
    by destruct (truthy (session_format w) && truthy (session_type w)), clicked. }
  split; [done|].
  by destruct (truthy (session_format w) && truthy (session_type w) && clicked).
Qed.

(** The guard is the page's: with a file uploaded and the enabled
    button clicked, the step is [process_files]. *)
Lemma nonempty_upload_processed B file files w :
  truthy (session_format w) = true ->
  truthy (session_type w) = true ->
  configure_converter_ui B true (file :: files) w = process_files B (file :: files) w.
Proof.
  intros Hf Ht. unfold configure_converter_ui. rewrite bind_run. unfold gets at 1.
  cbv beta iota. rewrite bind_run. unfold gets at 1. cbv beta iota.
  by rewrite Hf, Ht.
Qed.

(** [process_files] itself has no such guard: called on no file, it
    consults the factory and offers an empty archive. *)
Remark process_files_unguarded :
  let after := (process_files (Demo.backend Demo.no_tags) [] (Demo.session "mp3" "cbr")).2 in
  calls after = [CallGetConverter "mp3"] ∧
  ui after = [Spinner "Converting 0 file(s)...";
              Success "All files converted and zipped successfully!";
              DownloadButton "Download All as ZIP"
                (ArchiveData {| compression := ZIP_DEFLATED; entries := [] |})
                "converted_audio.zip" "application/zip"].
Proof. split; reflexivity. Qed.

(** ** The claims about the encoder parameters *)

Lemma vbr_parameters bitrate :
  MP3_LAME_parameters bitrate "vbr" =
    (append "INFO: Applying VBR encoding (audio only).";;
     mret ["-codec:a"; "libmp3lame"; "-id3v2_version"; "3"; "-q:a"; "0"]) ∧
  AAC_better_parameters bitrate "vbr" =
    (append "INFO: Applying VBR encoding (audio only).";;
     mret ["-c:a"; "aac"; "-q:a"; "2"]).
Proof. split; reflexivity. Qed.

Lemma constant_parameters bitrate conversion_type :
  conversion_type ≠ "vbr" ->
  MP3_LAME_parameters bitrate conversion_type =
    (append ("INFO: Applying " +:+ Py.upper conversion_type +:+ " encoding (audio only).");;
     mret ["-codec:a"; "libmp3lame"; "-id3v2_version"; "3";
           "-b:a"; Py.str_of_Z bitrate +:+ "k"]) ∧
  AAC_better_parameters bitrate conversion_type =
    (append ("INFO: Applying " +:+ Py.upper conversion_type +:+ " encoding (audio only).");;
     mret ["-c:a"; "aac"; "-b:a"; Py.str_of_Z bitrate +:+ "k"]).
Proof.
  intros H. unfold MP3_LAME_parameters, AAC_better_parameters.
  split; case_decide; done.
Qed.

Lemma append_suffix_inj (s1 s2 : string) (c : ascii) :
  s1 +:+ String c "" = s2 +:+ String c "" -> s1 = s2.
Proof.
  revert s2. induction s1 as [|a s1 IH]; intros [|b s2]; cbn; intros H.
  - reflexivity.
  - injection H as _ H. destruct s2; discriminate.
  - injection H as _ H. destruct s1; discriminate.
  - injection H as -> H. f_equal. by apply IH.
Qed.

(** The rendering of the bitrate is faithful: two bitrates give the
    same parameter only when they are equal. *)
Lemma bitrate_parameter_inj b1 b2 :
  Py.str_of_Z b1 +:+ "k" = Py.str_of_Z b2 +:+ "k" -> b1 = b2.
Proof.
  unfold Py.str_of_Z. intros H. apply (inj pretty).
  by apply (append_suffix_inj _ _ "k").
Qed.

(** C2.  Under [vbr] the bitrate does not enter [process]: for any two
    bitrates the two runs are equal, result and log, and the encoder
    parameters are the fixed quality parameters.  Under [cbr] and
    [abr] the parameters end with [-b:a] and the decimal rendering of
    the requested bitrate followed by [k]. *)
Theorem vbr_ignores_bitrate B converter file_data b1 b2 filename log :
  process B converter file_data b1 "vbr" filename log =
  process B converter file_data b2 "vbr" filename log ∧
  (MP3_LAME_parameters b1 "vbr" log).1 =
    Ok ["-codec:a"; "libmp3lame"; "-id3v2_version"; "3"; "-q:a"; "0"] ∧
  (AAC_better_parameters b1 "vbr" log).1 = Ok ["-c:a"; "aac"; "-q:a"; "2"] ∧
  (MP3_LAME_parameters b1 "cbr" log).1 =
    Ok ["-codec:a"; "libmp3lame"; "-id3v2_version"; "3"; "-b:a"; Py.str_of_Z b1 +:+ "k"] ∧
  (MP3_LAME_parameters b1 "abr" log).1 =
    Ok ["-codec:a"; "libmp3lame"; "-id3v2_version"; "3"; "-b:a"; Py.str_of_Z b1 +:+ "k"] ∧
  (AAC_better_parameters b1 "cbr" log).1 =
    Ok ["-c:a"; "aac"; "-b:a"; Py.str_of_Z b1 +:+ "k"] ∧
  (AAC_better_parameters b1 "abr" log).1 =
    Ok ["-c:a"; "aac"; "-b:a"; Py.str_of_Z b1 +:+ "k"].
Proof.
  split; [|repeat split; reflexivity].
  destruct converter; cbn [process].
  - unfold MP3_LAME_process.
    by rewrite (proj1 (vbr_parameters b1)), (proj1 (vbr_parameters b2)).
  - unfold AAC_better_process.
    by rewrite (proj2 (vbr_parameters b1)), (proj2 (vbr_parameters b2)).
Qed.

(** What [cbr] at 320 asks the encoder for. *)
Example cbr_320_parameters :
  (MP3_LAME_parameters 320 "cbr" []).1 =
    Ok ["-codec:a"; "libmp3lame"; "-id3v2_version"; "3"; "-b:a"; "320k"] ∧
  (AAC_better_parameters 320 "abr" []).1 = Ok ["-c:a"; "aac"; "-b:a"; "320k"].
Proof. split; reflexivity. Qed.

Lemma parameters_same_result bitrate t1 t2 :
  t1 ≠ "vbr" -> t2 ≠ "vbr" ->
  same_result (MP3_LAME_parameters bitrate t1) (MP3_LAME_parameters bitrate t2) ∧
  same_result (AAC_better_parameters bitrate t1) (AAC_better_parameters bitrate t2).
Proof.
  intros H1 H2.
  destruct (constant_parameters bitrate t1 H1) as [-> ->].
  destruct (constant_parameters bitrate t2 H2) as [-> ->].
  split; intros l1 l2; reflexivity.
Qed.

(** C9.  A bitrate mode other than the exact string [vbr] is not
    rejected: the parameters are the constant-bitrate ones, and
    [process] returns or raises exactly as it does for [cbr]. *)
Theorem other_modes_are_constant_bitrate B converter file_data bitrate
    conversion_type filename log :
  conversion_type ≠ "vbr" ->
  (MP3_LAME_parameters bitrate conversion_type log).1 =
    Ok ["-codec:a"; "libmp3lame"; "-id3v2_version"; "3";
        "-b:a"; Py.str_of_Z bitrate +:+ "k"] ∧
  (AAC_better_parameters bitrate conversion_type log).1 =
    Ok ["-c:a"; "aac"; "-b:a"; Py.str_of_Z bitrate +:+ "k"] ∧
  (process B converter file_data bitrate conversion_type filename log).1 =
  (process B converter file_data bitrate "cbr" filename log).1.
Proof.
  intros H.
  destruct (constant_parameters bitrate conversion_type H) as [E3 E4].
  split; [by rewrite E3|]. split; [by rewrite E4|].
  assert (Hcbr : "cbr" ≠ "vbr") by discriminate.
  destruct (parameters_same_result bitrate conversion_type "cbr" H Hcbr) as [S3 S4].
  cut (same_result (process B converter file_data bitrate conversion_type filename)
                   (process B converter file_data bitrate "cbr" filename));
    [intros S; apply S|].
  destruct converter; cbn [process];
    [unfold MP3_LAME_process | unfold AAC_better_process].
  - do 5 (apply same_result_bind;
            [apply (same_result_refl not_error); logger_step | intros ?]).
    apply same_result_bind; [exact S3 | intros ?].
    apply (same_result_refl not_error).
    logger; auto using MP3_LAME_tag_appends, MP3_LAME_picture_appends.
  - do 5 (apply same_result_bind;
            [apply (same_result_refl not_error); logger_step | intros ?]).
    apply same_result_bind; [exact S4 | intros ?].
    apply (same_result_refl not_error).
    logger; auto using AAC_better_tag_appends, AAC_better_picture_appends.
Qed.

Lemma other_modes_are_constant_bitrate_witness :
  (AAC_better_parameters 320 "foo" []).1 = Ok ["-c:a"; "aac"; "-b:a"; "320k"] ∧
  (process (Demo.backend Demo.no_tags) AAC_better (file_data (Demo.song "a.flac"))
           320 "foo" "a.flac" []).1 =
  (process (Demo.backend Demo.no_tags) AAC_better (file_data (Demo.song "a.flac"))
           320 "cbr" "a.flac" []).1.
Proof.
  destruct (other_modes_are_constant_bitrate (Demo.backend Demo.no_tags) AAC_better
              (file_data (Demo.song "a.flac")) 320 "foo" "a.flac" [])
    as (_ & H4 & Hsame); [discriminate|].
  split; [exact H4 | exact Hsame].
Defined.

(** ** The claims about the returned buffer *)

Ltac run_step H :=
  rewrite bind_run in H;
  lazymatch type of H with
  | context [match ?m ?l with _ => _ end] =>
      destruct (m l) as [[?|?] ?] eqn:?; [|discriminate H]
  end.

Ltac lifted :=
  repeat match goal with
         | E : lift_result _ _ = (Ok _, _) |- _ =>
             unfold lift_result in E; injection E as E ?; subst
         end.

Section Inversion.
Context (B : Backend).

(** A successful [MP3_LAME.process]: the buffer it returns is the one
    [save] returned for the encoder's buffer rewound to its start, and
    the log ends with the success line. *)
Lemma MP3_LAME_process_inv file_data bitrate conversion_type filename log out log' :
  MP3_LAME_process B file_data bitrate conversion_type filename log = (Ok out, log') ->
  ∃ flac_meta audio parameters exported mp3_meta frames,
    flac_open B (seek file_data 0) = Ok flac_meta ∧
    from_file B (seek file_data 0) = Ok audio ∧
    (MP3_LAME_parameters bitrate conversion_type []).1 = Ok parameters ∧
    export B audio "mp3" parameters = Ok exported ∧
    mp3_open B (seek exported 0) = Ok mp3_meta ∧
    mp3_save B mp3_meta frames (seek exported 0) = Ok out ∧
    last log' = Some ("SUCCESS: Finished MP3 conversion for '" +:+ filename +:+ "'.").
Proof.
  intros H. unfold MP3_LAME_process in H.
  do 13 run_step H. lifted.
  match goal with
  | E : MP3_LAME_parameters _ _ ?l = (Ok ?ps, _) |- _ =>
      pose proof (appends_result not_error _ l
                    (MP3_LAME_parameters_appends bitrate conversion_type)) as Hps;
      rewrite E in Hps; cbn [fst] in Hps
  end.
  injection H as <- <-.
  repeat match goal with
         | E : append _ _ = (Ok _, _) |- _ =>
             unfold append, modify in E; injection E as ?; subst
         end.
  eexists _, _, _, _, _, _. repeat (split; [eassumption || done|]).
  by rewrite last_snoc.
Qed.

(** The same for [AAC_better.process]. *)
Lemma AAC_better_process_inv file_data bitrate conversion_type filename log out log' :
  AAC_better_process B file_data bitrate conversion_type filename log = (Ok out, log') ->
  ∃ flac_meta audio parameters exported mp4_meta atoms,
    flac_open B (seek file_data 0) = Ok flac_meta ∧
    from_file B (seek file_data 0) = Ok audio ∧
    (AAC_better_parameters bitrate conversion_type []).1 = Ok parameters ∧
    export B audio "mp4" parameters = Ok exported ∧
    mp4_open B (seek exported 0) = Ok mp4_meta ∧
    mp4_save B mp4_meta atoms (seek exported 0) = Ok out ∧
    last log' = Some ("SUCCESS: Finished M4A conversion for '" +:+ filename +:+ "'.").
Proof.
  intros H. unfold AAC_better_process in H.
  do 13 run_step H. lifted.
  match goal with
  | E : AAC_better_parameters _ _ ?l = (Ok ?ps, _) |- _ =>
      pose proof (appends_result not_error _ l
                    (AAC_better_parameters_appends bitrate conversion_type)) as Hps;
      rewrite E in Hps; cbn [fst] in Hps
  end.
  injection H as <- <-.
  repeat match goal with
         | E : append _ _ = (Ok _, _) |- _ =>
             unfold append, modify in E; injection E as ?; subst
         end.
  eexists _, _, _, _, _, _. repeat (split; [eassumption || done|]).
  by rewrite last_snoc.
Qed.

End Inversion.

(** The line [process] ends a successful conversion with. *)
Lemma success_line_last B converter file_data bitrate conversion_type filename log out log' :
  process B converter file_data bitrate conversion_type filename log = (Ok out, log') ->
  last log' =
    Some ("SUCCESS: Finished "
          +:+ (match converter with MP3_LAME => "MP3" | AAC_better => "M4A" end)
          +:+ " conversion for '" +:+ filename +:+ "'.").
Proof.
  destruct converter; cbn [process]; intros H.
  - by apply MP3_LAME_process_inv in H as (? & ? & ? & ? & ? & ? & _ & _ & _ & _ & _ & _ & ->).
  - by apply AAC_better_process_inv in H as (? & ? & ? & ? & ? & ? & _ & _ & _ & _ & _ & _ & ->).
Qed.

(** C8 as stated fails on the cursor: a library whose [save] writes the
    tagged file back leaves the cursor behind what it wrote, and
    [process] returns the buffer as is. *)
Lemma returned_cursor_counterexample :
  let run := process (Demo.backend Demo.no_tags) MP3_LAME (file_data (Demo.song "a.flac"))
                     320 "cbr" "a.flac" [] in
  run.1 = Ok {| getvalue := [Byte.x66; Byte.x4c]; tell := 2 |} ∧
  last run.2 = Some "SUCCESS: Finished MP3 conversion for 'a.flac'." ∧
  ¬ (∀ out, run.1 = Ok out -> tell out = 0).
Proof.
  split; [reflexivity|]. split; [reflexivity|].
  intros H. specialize (H _ eq_refl). discriminate H.
Qed.

(** C8, amended.  A successful [process] ends the log with its success
    line and returns the buffer [save] returned: the encoder's buffer
    was rewound to offset zero before it was opened for tagging and
    saved, and [process] does not move the cursor after that, so it is
    where [save] left it. *)
Theorem success_returns_saved_buffer B converter file_data bitrate conversion_type
    filename log out log' :
  process B converter file_data bitrate conversion_type filename log = (Ok out, log') ->
  last log' =
    Some ("SUCCESS: Finished "
          +:+ (match converter with MP3_LAME => "MP3" | AAC_better => "M4A" end)
          +:+ " conversion for '" +:+ filename +:+ "'.") ∧
  ∃ audio format parameters exported,
    export B audio format parameters = Ok exported ∧
    tell (seek exported 0) = 0 ∧
    match converter with
    | MP3_LAME =>
        ∃ mp3_meta frames,
          mp3_open B (seek exported 0) = Ok mp3_meta ∧
          mp3_save B mp3_meta frames (seek exported 0) = Ok out
    | AAC_better =>
        ∃ mp4_meta atoms,
          mp4_open B (seek exported 0) = Ok mp4_meta ∧
          mp4_save B mp4_meta atoms (seek exported 0) = Ok out
    end.
Proof.
  intros H. split; [by eapply success_line_last|].
  destruct converter; cbn [process] in H.
  - apply MP3_LAME_process_inv in H
      as (? & audio & ps & exported & m & frames & _ & _ & _ & He & Ho & Hs & _).
    exists audio, "mp3", ps, exported. split; [done|]. split; [done|]. by exists m, frames.
  - apply AAC_better_process_inv in H
      as (? & audio & ps & exported & m & atoms & _ & _ & _ & He & Ho & Hs & _).
    exists audio, "mp4", ps, exported. split; [done|]. split; [done|]. by exists m, atoms.
Qed.

Lemma success_returns_saved_buffer_witness :
  last ["INFO: Starting M4A (AAC) conversion for 'a.flac'.";
        "INFO: Successfully extracted source metadata.";
        "INFO: Loaded audio data. Duration: 0.00s.";
        "INFO: Applying VBR encoding (audio only).";
        "INFO: Audio conversion complete. Applying metadata.";
        "INFO: Metadata successfully applied.";
        "SUCCESS: Finished M4A conversion for 'a.flac'."] =
    Some "SUCCESS: Finished M4A conversion for 'a.flac'." ∧
  ∃ audio format parameters exported,
    Demo.encode audio format parameters = Ok exported ∧
    tell (seek exported 0) = 0 ∧
    ∃ (mp4_meta : unit) (atoms : list (string * Mp4Value)),
      Demo.save atoms (seek exported 0) =
        Ok {| getvalue := [Byte.x66; Byte.x4c]; tell := 2 |}.
Proof.
  destruct (success_returns_saved_buffer (Demo.backend Demo.no_tags) AAC_better
              (file_data (Demo.song "a.flac")) 320 "vbr" "a.flac" []
              {| getvalue := [Byte.x66; Byte.x4c]; tell := 2 |}
              ["INFO: Starting M4A (AAC) conversion for 'a.flac'.";
               "INFO: Successfully extracted source metadata.";
               "INFO: Loaded audio data. Duration: 0.00s.";
               "INFO: Applying VBR encoding (audio only).";
               "INFO: Audio conversion complete. Applying metadata.";
               "INFO: Metadata successfully applied.";
               "SUCCESS: Finished M4A conversion for 'a.flac'."]
              eq_refl)
    as (Hlast & audio & format & parameters & exported & He & Ht & m & atoms & _ & Hs).
  split; [exact Hlast|].
  exists audio, format, parameters, exported. split; [exact He|]. split; [exact Ht|].
  exists m, atoms. exact Hs.
Defined.

(** ** The claims about the tags *)

Lemma lower_char_idemp c : Py.lower_char (Py.lower_char c) = Py.lower_char c.
Proof. by destruct c as [[] [] [] [] [] [] [] []]. Qed.

Lemma lower_idemp s : Py.lower (Py.lower s) = Py.lower s.
Proof.
  induction s as [|c s IH]; [done|]. unfold Py.lower in *. cbn.
  by rewrite lower_char_idemp, IH.
Qed.

(** The two tag maps, entry by entry. *)
Lemma mp3_tag_map_lookup k :
  mp3_tag_map !! k =
    if decide (k = "artist") then Some TPE1
    else if decide (k = "album") then Some TALB
    else if decide (k = "title") then Some TIT2
    else if decide (k = "tracknumber") then Some TRCK
    else if decide (k = "date") then Some TDRC
    else if decide (k = "genre") then Some TCON
    else None.
Proof.
  unfold mp3_tag_map. repeat (case_decide; [by subst|]).
  by rewrite !lookup_insert_ne, lookup_empty.
Qed.

Lemma mp4_tag_map_lookup k :
  mp4_tag_map !! k =
    if decide (k = "artist") then Some (String copyright "ART")
    else if decide (k = "album") then Some (String copyright "alb")
    else if decide (k = "title") then Some (String copyright "nam")
    else if decide (k = "tracknumber") then Some "trkn"
    else if decide (k = "date") then Some (String copyright "day")
    else if decide (k = "genre") then Some (String copyright "gen")
    else None.
Proof.
  unfold mp4_tag_map. repeat (case_decide; [by subst|]).
  by rewrite !lookup_insert_ne, lookup_empty.
Qed.

Lemma recognized_iff k :
  (k ∈ recognized_keys ↔ is_Some (mp3_tag_map !! k)) ∧
  (k ∈ recognized_keys ↔ is_Some (mp4_tag_map !! k)).
Proof.
  rewrite mp3_tag_map_lookup, mp4_tag_map_lookup. unfold recognized_keys.
  rewrite !elem_of_cons, elem_of_nil.
  split; (split;
    [ intros [->|[->|[->|[->|[->|[->|[]]]]]]]; eexists; reflexivity
    | intros [x Hx]; repeat (case_decide; [auto 10|]); discriminate Hx ]).
Qed.

(** Only [tracknumber] maps to the atom [trkn]. *)
Lemma mp4_trkn_iff k atom :
  mp4_tag_map !! k = Some atom -> (atom = "trkn" ↔ k = "tracknumber").
Proof.
  rewrite mp4_tag_map_lookup.
  repeat case_decide; intros [= <-]; split; intros; subst; done.
Qed.

Section Tags.
Context (B : Backend).

(** An unrecognised key leaves tags and log as they are. *)
Lemma unrecognized_skipped mp3_meta frames atoms key value log :
  Py.lower key ∉ recognized_keys ->
  MP3_LAME_tag B mp3_meta frames (key, value) log = (Ok frames, log) ∧
  AAC_better_tag B atoms (key, value) log = (Ok atoms, log).
Proof.
  intros H. destruct (recognized_iff (Py.lower key)) as [H3 H4].
  unfold MP3_LAME_tag, AAC_better_tag.
  destruct (mp3_tag_map !! Py.lower key) eqn:E3; [exfalso; apply H, H3; eauto|].
  destruct (mp4_tag_map !! Py.lower key) eqn:E4; [exfalso; apply H, H4; eauto|].
  done.
Qed.

(** The MP3 loop body on a recognised key: the first value goes into
    the frame as it is, whatever the key. *)
Lemma MP3_LAME_tag_recognized mp3_meta frames key v rest cls log :
  mp3_tag_map !! Py.lower key = Some cls ->
  MP3_LAME_tag B mp3_meta frames (key, v :: rest) log =
    if mp3_has_tags B mp3_meta
    then (Ok (frames ++ [TextFrame cls 3 v]), log)
    else (Raise {| exn_class := AttributeError;
                   exn_msg := "'NoneType' object has no attribute 'add'" |}, log).
Proof.
  intros H. unfold MP3_LAME_tag. rewrite H, bind_run. unfold mp3_tags_add.
  by destruct (mp3_has_tags B mp3_meta).
Qed.

(** The M4A loop body on a recognised key other than the track number. *)
Lemma AAC_better_tag_text atoms key v rest atom log :
  mp4_tag_map !! Py.lower key = Some atom ->
  Py.lower key ≠ "tracknumber" ->
  AAC_better_tag B atoms (key, v :: rest) log =
    match mp4_check B atom (Mp4Text v) with
    | None => (Ok (atoms ++ [(atom, Mp4Text v)]), log)
    | Some e => (Raise e, log)
    end.
Proof.
  intros H Hk. unfold AAC_better_tag. rewrite H.
  rewrite decide_False by (intros Hatom; by apply (mp4_trkn_iff _ _ H) in Hatom).
  rewrite bind_run. cbn [index lookup list_lookup]. unfold mret at 1, M_ret at 1.
  cbv beta iota. unfold mp4_setitem. by destruct (mp4_check B atom (Mp4Text v)).
Qed.

(** The M4A loop body on the track number: the value is parsed as the
    contract says; a value that does not parse, or a pair the tag
    library refuses with a [ValueError], is skipped with a warning. *)
Lemma AAC_better_tag_track atoms key v rest log :
  Py.lower key = "tracknumber" ->
  AAC_better_tag B atoms (key, v :: rest) log =
    match parse_track v with
    | Some numbers =>
        match mp4_check B "trkn" (Mp4Pairs [numbers]) with
        | None => (Ok (atoms ++ [("trkn", Mp4Pairs [numbers])]), log)
        | Some e =>
            if value_or_index_error (exn_class e)
            then (Ok atoms, log ++ [track_warning v])
            else (Raise e, log)
        end
    | None => (Ok atoms, log ++ [track_warning v])
    end.
Proof.
  intros Hk. unfold AAC_better_tag. rewrite Hk.
  change (mp4_tag_map !! "tracknumber") with (Some "trkn"). cbv beta iota.
  rewrite decide_True by done.
  unfold try_except, AAC_better_track, parse_track.
  rewrite bind_run. cbn [index lookup list_lookup]. unfold mret at 1, M_ret at 1.
  cbv beta iota.
  destruct (Py.split "/" v) as [|first more]; [reflexivity|].
  rewrite bind_run. cbn [index lookup list_lookup]. unfold mret at 1, M_ret at 1.
  cbv beta iota. rewrite bind_run. unfold py_int at 1.
  destruct (Py.int first) as [track|]; [|reflexivity].
  unfold mret at 1, M_ret at 1. cbv beta iota. rewrite bind_run.
  destruct more as [|second more].
  - rewrite decide_False by (cbn; lia). cbn. unfold mp4_setitem.
    destruct (mp4_check B "trkn" (Mp4Pairs [(track, 0%Z)])) as [e|]; [|reflexivity].
    cbn. by destruct (value_or_index_error (exn_class e)).
  - rewrite decide_True by (cbn; lia). rewrite bind_run.
    cbn [index lookup list_lookup]. unfold mret at 1, M_ret at 1. cbv beta iota.
    unfold py_int. destruct (Py.int second) as [total|]; [|reflexivity].
    cbn. unfold mp4_setitem.
    destruct (mp4_check B "trkn" (Mp4Pairs [(track, total)])) as [e|]; [|reflexivity].
    cbn. by destruct (value_or_index_error (exn_class e)).
Qed.

End Tags.

(** The contract on the examples of the specification. *)
Example parse_track_examples :
  parse_track "5/12" = Some (5, 12)%Z ∧
  parse_track "7" = Some (7, 0)%Z ∧
  parse_track "abc" = None ∧
  parse_track "5/x" = None ∧
  parse_track "" = None.
Proof. repeat split; reflexivity. Qed.

(** C1 as stated fails for the MP3 converter, which does not parse: the
    value [abc] is written into the track frame and nothing is logged.
    It also fails for a non-integer third segment in the M4A converter,
    which looks at the first two segments only. *)
Lemma track_number_counterexample :
  Py.int "abc" = None ∧
  MP3_LAME_tag (Demo.backend Demo.no_tags) tt [] ("tracknumber", ["abc"]) [] =
    (Ok [TextFrame TRCK 3 "abc"], []) ∧
  Py.split "/" "5/12/abc" = ["5"; "12"; "abc"] ∧
  AAC_better_tag (Demo.backend Demo.no_tags) [] ("tracknumber", ["5/12/abc"]) [] =
    (Ok [("trkn", Mp4Pairs [(5, 12)%Z])], []).
Proof. repeat split; reflexivity. Qed.

(** C1, amended.  On a key that lowercases to [tracknumber]:
    the M4A converter splits the first value on [/], reads the first
    segment as the track and the second, when present, as the total
    (0 otherwise), and assigns the pair; when one of these two segments
    is not an integer, or the tag library refuses the pair with a
    [ValueError], it appends the warning, assigns nothing, and the loop
    goes on: the atoms assigned before stay and the keys after are
    processed.  The MP3 converter does not parse: it adds the first
    value as it is as the text of the track frame and logs nothing. *)
Theorem track_number_contract B mp3_meta frames atoms key v rest before after log :
  Py.lower key = "tracknumber" ->
  AAC_better_tag B atoms (key, v :: rest) log =
    match parse_track v with
    | Some numbers =>
        match mp4_check B "trkn" (Mp4Pairs [numbers]) with
        | None => (Ok (atoms ++ [("trkn", Mp4Pairs [numbers])]), log)
        | Some e =>
            if value_or_index_error (exn_class e)
            then (Ok atoms, log ++ [track_warning v])
            else (Raise e, log)
        end
    | None => (Ok atoms, log ++ [track_warning v])
    end ∧
  (parse_track v = None ->
   for_each (AAC_better_tag B) (before ++ (key, v :: rest) :: after) atoms log =
     match for_each (AAC_better_tag B) before atoms log with
     | (Ok atoms', log') =>
         for_each (AAC_better_tag B) after atoms' (log' ++ [track_warning v])
     | (Raise e, log') => (Raise e, log')
     end) ∧
  MP3_LAME_tag B mp3_meta frames (key, v :: rest) log =
    if mp3_has_tags B mp3_meta
    then (Ok (frames ++ [TextFrame TRCK 3 v]), log)
    else (Raise {| exn_class := AttributeError;
                   exn_msg := "'NoneType' object has no attribute 'add'" |}, log).
Proof.
  intros Hk. split; [by apply AAC_better_tag_track|]. split.
  - intros Hv. rewrite for_each_app.
    destruct (for_each (AAC_better_tag B) before atoms log) as [[atoms'|e] log']; [|done].
    cbn [for_each]. rewrite bind_run, (AAC_better_tag_track B atoms' key v rest log' Hk).
    by rewrite Hv.
  - apply MP3_LAME_tag_recognized. by rewrite Hk.
Qed.

Lemma track_number_contract_witness :
  AAC_better_tag (Demo.backend Demo.no_tags) [] ("TrackNumber", ["5/12"]) [] =
    (Ok [("trkn", Mp4Pairs [(5, 12)%Z])], []) ∧
  AAC_better_tag (Demo.backend Demo.no_tags) [] ("TRACKNUMBER", ["7"]) [] =
    (Ok [("trkn", Mp4Pairs [(7, 0)%Z])], []) ∧
  for_each (AAC_better_tag (Demo.backend Demo.no_tags))
    ([("artist", ["x"])] ++ ("tracknumber", ["abc"]) :: [("title", ["y"])]) [] [] =
    (Ok [(String copyright "ART", Mp4Text "x"); (String copyright "nam", Mp4Text "y")],
     ["WARNING: Could not parse track number 'abc'. Skipping."]) ∧
  MP3_LAME_tag (Demo.backend Demo.no_tags) tt [] ("tracknumber", ["abc"]) [] =
    (Ok [TextFrame TRCK 3 "abc"], []).
Proof.
  split; [|split; [|split]].
  - exact (proj1 (track_number_contract (Demo.backend Demo.no_tags) tt [] []
                    "TrackNumber" "5/12" [] [] [] [] eq_refl)).
  - exact (proj1 (track_number_contract (Demo.backend Demo.no_tags) tt [] []
                    "TRACKNUMBER" "7" [] [] [] [] eq_refl)).
  - exact (proj1 (proj2 (track_number_contract (Demo.backend Demo.no_tags) tt [] []
                           "tracknumber" "abc" [] [("artist", ["x"])] [("title", ["y"])] []
                           eq_refl)) eq_refl).
  - exact (proj2 (proj2 (track_number_contract (Demo.backend Demo.no_tags) tt [] []
                           "tracknumber" "abc" [] [] [] [] eq_refl))).
Defined.

(** C6 as stated fails for the MP3 converter, which writes no image
    format of its own: the picture's MIME string goes into the frame as
    it is, so a GIF is written as [image/gif], neither the JPEG nor the
    PNG indicator. *)
Lemma picture_format_counterexample :
  let gif := {| mime := "image/gif"; pic_type := 3; desc := ""; data := [Byte.x47] |} in
  MP3_LAME_picture (Demo.backend Demo.no_tags) tt {| items := []; pictures := [gif] |} [] [] =
    (Ok [APIC 3 "image/gif" 3 "" [Byte.x47]], []) ∧
  "image/gif" ≠ "image/png" ∧ "image/gif" ≠ "image/jpeg".
Proof. repeat split; discriminate. Qed.

(** C6, amended.  Both converters embed the first picture of the source
    and no other.  The M4A converter assigns one cover holding the
    picture's data, with the JPEG format exactly when the MIME type is
    [image/jpeg] and the PNG format for every other MIME type.  The MP3
    converter adds one picture frame carrying the picture's MIME type,
    type code, description and data as they are. *)
Theorem first_picture_embedded B mp3_meta source_items pic more frames atoms log :
  let flac_meta := {| items := source_items; pictures := pic :: more |} in
  let first_only := {| items := source_items; pictures := [pic] |} in
  MP3_LAME_picture B mp3_meta flac_meta frames log =
    MP3_LAME_picture B mp3_meta first_only frames log ∧
  AAC_better_picture B flac_meta atoms log =
    AAC_better_picture B first_only atoms log ∧
  MP3_LAME_picture B mp3_meta flac_meta frames log =
    (if mp3_has_tags B mp3_meta
     then (Ok (frames ++ [APIC 3 (mime pic) (pic_type pic) (desc pic) (data pic)]), log)
     else (Raise {| exn_class := AttributeError;
                    exn_msg := "'NoneType' object has no attribute 'add'" |}, log)) ∧
  ∃ cover,
    AAC_better_picture B flac_meta atoms log =
      match mp4_check B "covr" (Mp4Covers [cover]) with
      | None => (Ok (atoms ++ [("covr", Mp4Covers [cover])]), log)
      | Some e => (Raise e, log)
      end ∧
    cover_data cover = data pic ∧
    (imageformat cover = FORMAT_JPEG ↔ mime pic = "image/jpeg") ∧
    (imageformat cover = FORMAT_PNG ↔ mime pic ≠ "image/jpeg").
Proof.
  cbv zeta. split; [reflexivity|]. split; [reflexivity|]. split.
  - unfold MP3_LAME_picture, mp3_tags_add. cbn [pictures]. rewrite bind_run.
    by destruct (mp3_has_tags B mp3_meta).
  - exists {| cover_data := data pic;
              imageformat := if decide (mime pic = "image/jpeg")
                             then FORMAT_JPEG else FORMAT_PNG |}.
    split; [|split; [reflexivity|]].
    + unfold AAC_better_picture, mp4_setitem. cbn [pictures].
      by destruct (mp4_check B "covr" _).
    + cbn [imageformat]. case_decide; split; split; intros; congruence.
Qed.

(** Without a picture neither converter adds one. *)
Lemma no_picture_embedded B mp3_meta source_items frames atoms log :
  let flac_meta := {| items := source_items; pictures := [] |} in
  MP3_LAME_picture B mp3_meta flac_meta frames log = (Ok frames, log) ∧
  AAC_better_picture B flac_meta atoms log = (Ok atoms, log).
Proof. split; reflexivity. Qed.

(** The pictures of the specification's example. *)
Example cover_formats :
  let jpeg := {| mime := "image/jpeg"; pic_type := 3; desc := ""; data := [Byte.xff] |} in
  let gif := {| mime := "image/gif"; pic_type := 3; desc := ""; data := [Byte.x47] |} in
  AAC_better_picture (Demo.backend Demo.no_tags)
    {| items := []; pictures := [jpeg; gif] |} [] [] =
    (Ok [("covr", Mp4Covers [{| cover_data := [Byte.xff]; imageformat := FORMAT_JPEG |}])],
     []) ∧
  AAC_better_picture (Demo.backend Demo.no_tags)
    {| items := []; pictures := [gif; jpeg] |} [] [] =
    (Ok [("covr", Mp4Covers [{| cover_data := [Byte.x47]; imageformat := FORMAT_PNG |}])],
     []).
Proof. split; reflexivity. Qed.

(** C10 as stated fails for the track number in the M4A converter: the
    key [TRACKNUMBER] lowercases to a recognised key, yet with the value
    [abc] no atom is assigned. *)
Lemma recognized_key_counterexample :
  Py.lower "TRACKNUMBER" ∈ recognized_keys ∧
  AAC_better_tag (Demo.backend Demo.no_tags) [] ("TRACKNUMBER", ["abc"]) [] =
    (Ok [], ["WARNING: Could not parse track number 'abc'. Skipping."]).
Proof. split; [|reflexivity]. by apply (bool_decide_unpack _). Qed.

(** C10, amended.  Both loop bodies look the key up lowercased, so they
    do the same on a key and on its lowercasing.  A key whose
    lowercasing is not one of the six recognised keys changes neither
    the tags nor the log.  A key whose lowercasing is recognised gets
    its first value written to the mapped field: by the MP3 converter
    always (given the file has a tag header), by the M4A converter for
    every key but the track number (given the library accepts the
    value); the track number is written as the pair it parses to, and
    is skipped with a warning when it does not parse. *)
Theorem tag_keys_case_insensitive B mp3_meta frames atoms key value log :
  let k := Py.lower key in
  MP3_LAME_tag B mp3_meta frames (key, value) log =
    MP3_LAME_tag B mp3_meta frames (k, value) log ∧
  AAC_better_tag B atoms (key, value) log = AAC_better_tag B atoms (k, value) log ∧
  (k ∉ recognized_keys ->
     MP3_LAME_tag B mp3_meta frames (key, value) log = (Ok frames, log) ∧
     AAC_better_tag B atoms (key, value) log = (Ok atoms, log)) ∧
  (k ∈ recognized_keys -> ∀ v rest, value = v :: rest ->
     ∃ frame_class atom,
       mp3_tag_map !! k = Some frame_class ∧
       mp4_tag_map !! k = Some atom ∧
       (mp3_has_tags B mp3_meta = true ->
          MP3_LAME_tag B mp3_meta frames (key, value) log =
            (Ok (frames ++ [TextFrame frame_class 3 v]), log)) ∧
       (k ≠ "tracknumber" -> mp4_check B atom (Mp4Text v) = None ->
          AAC_better_tag B atoms (key, value) log =
            (Ok (atoms ++ [(atom, Mp4Text v)]), log)) ∧
       (k = "tracknumber" -> ∀ numbers, parse_track v = Some numbers ->
          mp4_check B atom (Mp4Pairs [numbers]) = None ->
          AAC_better_tag B atoms (key, value) log =
            (Ok (atoms ++ [(atom, Mp4Pairs [numbers])]), log)) ∧
       (k = "tracknumber" -> parse_track v = None ->
          AAC_better_tag B atoms (key, value) log =
            (Ok atoms, log ++ [track_warning v]))).
Proof.
  intros k. split; [|split; [|split]].
  - unfold MP3_LAME_tag. subst k. by rewrite lower_idemp.
  - unfold AAC_better_tag. subst k. by rewrite lower_idemp.
  - apply unrecognized_skipped.
  - intros Hk v rest ->. destruct (recognized_iff k) as [H3 H4].
    destruct (proj1 H3 Hk) as [frame_class E3]. destruct (proj1 H4 Hk) as [atom E4].
    exists frame_class, atom. split; [done|]. split; [done|].
    split; [|split; [|split]].
    + intros Htags. rewrite (MP3_LAME_tag_recognized B _ _ _ _ _ frame_class) by done.
      by rewrite Htags.
    + intros Hne Hcheck. rewrite (AAC_better_tag_text B _ _ _ _ atom) by done.
      by rewrite Hcheck.
    + intros Heq numbers Hparse Hcheck.
      assert (atom = "trkn") as -> by (by apply (mp4_trkn_iff k)).
      rewrite (AAC_better_tag_track B) by done. by rewrite Hparse, Hcheck.
    + intros Heq Hparse. rewrite (AAC_better_tag_track B) by done. by rewrite Hparse.
Qed.

Lemma tag_keys_case_insensitive_witness :
  MP3_LAME_tag (Demo.backend Demo.no_tags) tt [] ("ArTiSt", ["x"]) [] =
    MP3_LAME_tag (Demo.backend Demo.no_tags) tt [] ("artist", ["x"]) [] ∧
  MP3_LAME_tag (Demo.backend Demo.no_tags) tt [] ("ArTiSt", ["x"]) [] =
    (Ok [TextFrame TPE1 3 "x"], []) ∧
  AAC_better_tag (Demo.backend Demo.no_tags) [] ("ArTiSt", ["x"]) [] =
    (Ok [(String copyright "ART", Mp4Text "x")], []) ∧
  AAC_better_tag (Demo.backend Demo.no_tags) [] ("Comment", ["x"]) [] = (Ok [], []).
Proof.
  pose proof (tag_keys_case_insensitive (Demo.backend Demo.no_tags) tt [] []
                "ArTiSt" ["x"] []) as (Hcase & _ & _ & Hrec).
  pose proof (tag_keys_case_insensitive (Demo.backend Demo.no_tags) tt [] []
                "Comment" ["x"] []) as (_ & _ & Hskip & _).
  split; [exact Hcase|].
  destruct Hrec with (v := "x") (rest := @nil string)
    as (frame_class & atom & E3 & E4 & Hmp3 & Hm4a & _).
  { by apply (bool_decide_unpack _). }
  { reflexivity. }
  injection E3 as <-. injection E4 as <-.
  split; [exact (Hmp3 eq_refl)|].
  split; [apply Hm4a; [discriminate | reflexivity]|].
  apply Hskip. by apply (bool_decide_unpack _).
Defined.

(** * Further properties of the code *)

(** ** The batch driver *)

(** [process_files] starts from an empty log: what the log held before
    the batch has no effect on what it does or on the log it leaves. *)
Lemma process_files_forgets_log B files stale w :
  process_files B files (set_logs stale w) = process_files B files w.
Proof. by destruct w. Qed.

(** X2.  Called with no format or no type selected, [process_files]
    raises the [AttributeError] of [None.upper()] outside its [try]:
    it is not caught, the log holds the BATCH START line alone, nothing
    is shown and no converter is asked for. *)
Theorem process_files_without_selection B files w :
  session_format w = None ∨ session_type w = None ->
  process_files B files w =
    (Raise none_upper,
     {| session_format := session_format w;
        session_type := session_type w;
        session_logs := ["BATCH START: Initializing conversion for "
                         +:+ Py.str_of_nat (length files) +:+ " file(s)."];
        ui := ui w;
        calls := calls w |}).
Proof.
  destruct w as [[f|] [t|] lg u cl]; cbn [session_format session_type];
    intros [H|H]; try discriminate H; reflexivity.
Qed.

Lemma process_files_without_selection_witness :
  process_files (Demo.backend Demo.no_tags) [Demo.song "a.flac"]
    {| session_format := None; session_type := Some "cbr";
       session_logs := []; ui := []; calls := [] |} =
    (Raise {| exn_class := AttributeError;
              exn_msg := "'NoneType' object has no attribute 'upper'" |},
     {| session_format := None; session_type := Some "cbr";
        session_logs := ["BATCH START: Initializing conversion for 1 file(s)."];
        ui := []; calls := [] |}).
Proof.
  apply (process_files_without_selection (Demo.backend Demo.no_tags)
           [Demo.song "a.flac"]
           {| session_format := None; session_type := Some "cbr";
              session_logs := []; ui := []; calls := [] |}).
  left. reflexivity.
Defined.

Lemma truthy_some x : truthy x = true -> ∃ s, x = Some s.
Proof. destruct x; [eauto | discriminate]. Qed.

(** With both options selected, no exception leaves [process_files]. *)
Lemma process_files_catches B files selected_format conversion_type w :
  session_format w = Some selected_format ->
  session_type w = Some conversion_type ->
  (process_files B files w).1 = Ok tt.
Proof.
  intros Hf Ht.
  rewrite (process_files_run B files selected_format conversion_type w Hf Ht).
  unfold try_except.
  destruct (convert_all B files selected_format conversion_type _) as [[[]|e] w'];
    [reflexivity|].
  cbn [any_exception]. by rewrite report_run.
Qed.

(** X3.  The convert step of the page never raises, whatever the
    libraries do: without a selection or without files it does not
    reach the driver, and with both the driver's handler catches every
    exception of the factory and of the converters. *)
Theorem convert_step_never_raises B clicked uploaded_files w :
  (configure_converter_ui B clicked uploaded_files w).1 = Ok tt.
Proof.
  unfold configure_converter_ui. rewrite bind_run. unfold gets at 1. cbv beta iota.
  rewrite bind_run. unfold gets at 1. cbv beta iota.
  destruct (truthy (session_format w)) eqn:Hf; [|reflexivity].
  destruct (truthy (session_type w)) eqn:Ht; [|reflexivity].
  cbn [andb]. destruct clicked; [|reflexivity].
  destruct uploaded_files as [|file files]; [reflexivity|].
  apply truthy_some in Hf as [f Hf]. apply truthy_some in Ht as [t Ht].
  by eapply process_files_catches.
Qed.

(** X4.  In a batch where every file converts, the factory is asked
    once, before any file is touched, and [process] is called once per
    file, in upload order, on the converter the factory returned. *)
Theorem converter_resolved_once B files outputs selected_format conversion_type converter w :
  session_format w = Some selected_format ->
  session_type w = Some conversion_type ->
  get_converter selected_format = Ok converter ->
  Forall2 (λ file out, converted B converter conversion_type file = Ok out) files outputs ->
  calls (process_files B files w).2 =
    calls w ++ CallGetConverter selected_format
            :: map (λ file, CallProcess converter (name file)) files.
Proof.
  intros Hf Ht Hc Hall.
  rewrite (process_files_run B files selected_format conversion_type w Hf Ht).
  unfold try_except.
  destruct (decide (length files = 1)) as [Hone|Hmany].
  - destruct files as [|file [|? ?]]; try discriminate Hone.
    apply Forall2_cons_inv_l in Hall as (out & outs & Hout & Hnil & ->).
    apply Forall2_nil_inv_l in Hnil as ->.
    edestruct (convert_all_single B file out selected_format conversion_type converter)
      as (added & _ & ->); [done..|]. reflexivity.
  - edestruct (convert_all_archive B files outputs selected_format conversion_type converter)
      as (added & _ & ->); [done..|]. reflexivity.
Qed.

Lemma converter_resolved_once_witness :
  calls (process_files (Demo.backend Demo.no_tags)
           [Demo.song "a.flac"; Demo.song "b.flac"; Demo.song "c.flac"]
           (Demo.session "mp3" "cbr")).2 =
    [CallGetConverter "mp3"; CallProcess MP3_LAME "a.flac";
     CallProcess MP3_LAME "b.flac"; CallProcess MP3_LAME "c.flac"].
Proof.
  apply (converter_resolved_once (Demo.backend Demo.no_tags)
           [Demo.song "a.flac"; Demo.song "b.flac"; Demo.song "c.flac"]
           [{| getvalue := [Byte.x66; Byte.x4c]; tell := 2 |};
            {| getvalue := [Byte.x66; Byte.x4c]; tell := 2 |};
            {| getvalue := [Byte.x66; Byte.x4c]; tell := 2 |}]
           "mp3" "cbr" MP3_LAME (Demo.session "mp3" "cbr") eq_refl eq_refl eq_refl).
  repeat constructor.
Defined.

(** ** The names of the outputs *)

Lemma rsplit1_head_whole sep s :
  Py.contains sep s = false -> Py.rsplit1_head sep s = s.
Proof.
  induction s as [|c s IH]; [done|]. cbn. intros H.
  apply orb_false_iff in H as [Hc Hs]. rewrite Hc. cbn. by rewrite IH.
Qed.

Lemma contains_app sep a b :
  Py.contains sep (a +:+ b) = Py.contains sep a || Py.contains sep b.
Proof.
  induction a as [|c a IH]; [done|].
  change (String c a +:+ b) with (String c (a +:+ b)). cbn [Py.contains].
  by rewrite IH, orb_assoc.
Qed.

Lemma rsplit1_head_last sep stem ext :
  Py.contains sep ext = false ->
  Py.rsplit1_head sep (stem +:+ String sep ext) = stem.
Proof.
  intros Hext. induction stem as [|c stem IH].
  - change ("" +:+ String sep ext) with (String sep ext). cbn [Py.rsplit1_head].
    by rewrite Ascii.eqb_refl, Hext.
  - change (String c stem +:+ String sep ext) with (String c (stem +:+ String sep ext)).
    cbn [Py.rsplit1_head]. rewrite IH, contains_app. cbn [Py.contains].
    rewrite Ascii.eqb_refl, orb_true_r. cbn [negb]. by rewrite andb_false_r.
Qed.

(** X5.  The name of an output is the upload's name with what follows
    its last dot replaced by the target format: earlier dots stay in
    the stem, and a name without a dot is kept whole and gets the
    format appended. *)
Theorem output_name_replaces_extension (stem ext undotted selected_format : string) content :
  Py.contains "." ext = false ->
  Py.contains "." undotted = false ->
  new_filename {| name := stem +:+ "." +:+ ext; file_data := content |} selected_format =
    stem +:+ "." +:+ selected_format ∧
  new_filename {| name := undotted; file_data := content |} selected_format =
    undotted +:+ "." +:+ selected_format.
Proof.
  intros Hext Hun. unfold new_filename. cbn [name]. split.
  - change ("." +:+ ext) with (String "." ext).
    by rewrite (rsplit1_head_last "." stem ext Hext).
  - by rewrite rsplit1_head_whole.
Qed.

Lemma output_name_replaces_extension_witness :
  new_filename (Demo.song "live.2019.flac") "m4a" = "live.2019.m4a" ∧
  new_filename (Demo.song "untitled") "m4a" = "untitled.m4a".
Proof.
  exact (output_name_replaces_extension "live.2019" "flac" "untitled" "m4a"
           {| getvalue := [Byte.x66; Byte.x4c]; tell := 0 |} eq_refl eq_refl).
Defined.

(** X6.  The archive is not keyed by name: two uploads whose names have
    the same stem are written as two entries under one name. *)
Theorem archive_keeps_duplicate_names B files outputs selected_format conversion_type
    converter w i j first second :
  session_format w = Some selected_format ->
  session_type w = Some conversion_type ->
  get_converter selected_format = Ok converter ->
  Forall2 (λ file out, converted B converter conversion_type file = Ok out) files outputs ->
  files !! i = Some first ->
  files !! j = Some second ->
  i ≠ j ->
  Py.rsplit1_head "." (name first) = Py.rsplit1_head "." (name second) ->
  ∃ archive,
    last (ui (process_files B files w).2) =
      Some (DownloadButton "Download All as ZIP" (ArchiveData archive)
              "converted_audio.zip" "application/zip") ∧
    length (entries archive) = length files ∧
    (entries archive).*1 !! i = Some (new_filename first selected_format) ∧
    (entries archive).*1 !! j = Some (new_filename first selected_format) ∧
    ¬ NoDup (entries archive).*1.
Proof.
  intros Hf Ht Hc Hall Hi Hj Hij Hstem.
  assert (length files ≠ 1) as Hmany.
  { apply lookup_lt_Some in Hi, Hj. lia. }
  rewrite (process_files_run B files selected_format conversion_type w Hf Ht).
  unfold try_except.
  edestruct (convert_all_archive B files outputs selected_format conversion_type converter)
    as (added & _ & ->); [done..|].
  eexists. split; [cbn; by rewrite last_snoc|]. cbn [entries].
  pose proof (Forall2_length _ _ _ Hall) as Hlen.
  assert ((zip (map (λ file, new_filename file selected_format) files)
               (map getvalue outputs)).*1 =
          map (λ file, new_filename file selected_format) files) as Hnames.
  { rewrite fst_zip; [done|]. rewrite !length_map. lia. }
  rewrite Hnames.
  assert (map (λ file, new_filename file selected_format) files !! i =
          Some (new_filename first selected_format)) as Ei
    by (by rewrite list_lookup_fmap, Hi).
  assert (map (λ file, new_filename file selected_format) files !! j =
          Some (new_filename first selected_format)) as Ej.
  { rewrite list_lookup_fmap, Hj. cbn. unfold new_filename. by rewrite Hstem. }
  split; [rewrite length_zip_with, !length_map; lia|].
  split; [done|]. split; [done|].
  intros Hnodup. apply Hij. by eapply NoDup_lookup.
Qed.

Lemma archive_keeps_duplicate_names_witness :
  ∃ archive,
    last (ui (process_files (Demo.backend Demo.no_tags)
                [Demo.song "a.flac"; Demo.song "a.FLAC"]
                (Demo.session "mp3" "cbr")).2) =
      Some (DownloadButton "Download All as ZIP" (ArchiveData archive)
              "converted_audio.zip" "application/zip") ∧
    (entries archive).*1 !! 0 = Some "a.mp3" ∧
    (entries archive).*1 !! 1 = Some "a.mp3".
Proof.
  destruct (archive_keeps_duplicate_names (Demo.backend Demo.no_tags)
              [Demo.song "a.flac"; Demo.song "a.FLAC"]
              [{| getvalue := [Byte.x66; Byte.x4c]; tell := 2 |};
               {| getvalue := [Byte.x66; Byte.x4c]; tell := 2 |}]
              "mp3" "cbr" MP3_LAME (Demo.session "mp3" "cbr") 0 1
              (Demo.song "a.flac") (Demo.song "a.FLAC")
              eq_refl eq_refl eq_refl)
    as (archive & Hui & _ & H0 & H1 & _).
  - repeat constructor.
  - reflexivity.
  - reflexivity.
  - discriminate.
  - reflexivity.
  - exists archive. split; [exact Hui|]. split; [exact H0 | exact H1].
Defined.

(** ** The log of a conversion *)

Lemma appends_mono {A} (P Q : string -> Prop) (m : M Log A) :
  (∀ line, P line -> Q line) -> appends P m -> appends Q m.
Proof. intros HPQ [H HP]. split; [done|]. by eapply Forall_impl. Qed.

Lemma raises_with_bind {A C} P (m : M Log A) (k : A -> M Log C) :
  appends P m -> (∀ a, raises_with P (k a)) -> raises_with P (m ≫= k).
Proof.
  intros [Hm Pm] Hk l e l' H. rewrite bind_run, (Hm l) in H.
  destruct (m []) as [[a|e0] w]; cbn [fst snd] in *.
  - destruct (Hk a _ _ _ H) as (added & -> & Padded).
    exists (w ++ added). split; [by rewrite app_assoc | by apply Forall_app].
  - injection H as _ <-. by exists w.
Qed.

Lemma progress_not_success line : progress_line line -> not_success line.
Proof.
  unfold progress_line, not_success, is_success_line.
  destruct line as [|c line]; [done|].
  destruct c as [[] [] [] [] [] [] [] []]; cbn; intros [H|H]; congruence.
Qed.

Lemma progress_not_error line : progress_line line -> not_error line.
Proof.
  unfold progress_line, not_error, is_error_line.
  destruct line as [|c line]; [done|].
  destruct c as [[] [] [] [] [] [] [] []]; cbn; intros [H|H]; congruence.
Qed.

Ltac progress_step :=
  first
    [ solve [auto 1 with progress_lines nocore]
    | apply appends_ret
    | apply appends_raise
    | apply appends_lift_result
    | apply appends_index
    | apply appends_py_int
    | apply appends_append; solve [left; reflexivity | right; reflexivity]
    | apply appends_try_except; [|intros ?]
    | apply appends_for_each; intros ? ?
    | apply appends_bind; [|intros ?] ].

Create HintDb progress_lines discriminated.

Section ProgressLines.
Context (B : Backend).

Lemma MP3_LAME_parameters_progress bitrate conversion_type :
  appends progress_line (MP3_LAME_parameters bitrate conversion_type).
Proof. unfold MP3_LAME_parameters. case_decide; repeat progress_step. Qed.

Lemma AAC_better_parameters_progress bitrate conversion_type :
  appends progress_line (AAC_better_parameters bitrate conversion_type).
Proof. unfold AAC_better_parameters. case_decide; repeat progress_step. Qed.

Lemma mp3_tags_add_progress mp3_meta : appends progress_line (mp3_tags_add B mp3_meta).
Proof. unfold mp3_tags_add. destruct (mp3_has_tags B mp3_meta); repeat progress_step. Qed.
Hint Resolve MP3_LAME_parameters_progress AAC_better_parameters_progress
  mp3_tags_add_progress : progress_lines.

Lemma MP3_LAME_tag_progress mp3_meta frames item :
  appends progress_line (MP3_LAME_tag B mp3_meta frames item).
Proof.
  destruct item as [key value]. unfold MP3_LAME_tag.
  destruct (mp3_tag_map !! Py.lower key); repeat progress_step.
Qed.

Lemma MP3_LAME_picture_progress mp3_meta flac_meta frames :
  appends progress_line (MP3_LAME_picture B mp3_meta flac_meta frames).
Proof. unfold MP3_LAME_picture. destruct (pictures flac_meta); repeat progress_step. Qed.

Lemma mp4_setitem_progress atoms key value :
  appends progress_line (mp4_setitem B atoms key value).
Proof. unfold mp4_setitem. destruct (mp4_check B key value); repeat progress_step. Qed.
Hint Resolve MP3_LAME_tag_progress MP3_LAME_picture_progress
  mp4_setitem_progress : progress_lines.

Lemma AAC_better_track_progress atoms tag_key value :
  appends progress_line (AAC_better_track B atoms tag_key value).
Proof.
  unfold AAC_better_track. repeat progress_step. case_decide; repeat progress_step.
Qed.
Hint Resolve AAC_better_track_progress : progress_lines.

Lemma AAC_better_tag_progress atoms item :
  appends progress_line (AAC_better_tag B atoms item).
Proof.
  destruct item as [key value]. unfold AAC_better_tag.
  destruct (mp4_tag_map !! Py.lower key); [case_decide|]; repeat progress_step.
Qed.

Lemma AAC_better_picture_progress flac_meta atoms :
  appends progress_line (AAC_better_picture B flac_meta atoms).
Proof. unfold AAC_better_picture. destruct (pictures flac_meta); repeat progress_step. Qed.
Hint Resolve AAC_better_tag_progress AAC_better_picture_progress : progress_lines.

Ltac raising_step :=
  cbv zeta; apply raises_with_bind; [solve [repeat progress_step] | intros ?].

(** When [process] raises, every line it has appended is a progress or
    warning line. *)
Lemma process_raises_with converter file_data bitrate conversion_type filename :
  raises_with progress_line
    (process B converter file_data bitrate conversion_type filename).
Proof.
  destruct converter; cbn [process];
    [unfold MP3_LAME_process | unfold AAC_better_process];
    do 13 raising_step; intros l e l' H; discriminate H.
Qed.

End ProgressLines.

(** X7.  The log tells a failure from a success: when [process] raises,
    it has only appended to the log, and none of the lines it appended
    is a SUCCESS line; when it returns, the last line is. *)
Theorem success_line_only_on_success B converter file_data bitrate conversion_type
    filename log :
  match process B converter file_data bitrate conversion_type filename log with
  | (Raise e, log') =>
      ∃ added, log' = log ++ added ∧ Forall (λ line, is_success_line line = false) added
  | (Ok out, log') =>
      ∃ earlier line, log' = log ++ earlier ++ [line] ∧ is_success_line line = true
  end.
Proof.
  destruct (process B converter file_data bitrate conversion_type filename log)
    as [[out|e] log'] eqn:H.
  - destruct (process_appends B converter file_data bitrate conversion_type filename)
      as [Hrun _].
    rewrite (Hrun log) in H.
    destruct (process B converter file_data bitrate conversion_type filename [])
      as [r added] eqn:E0.
    cbn [fst snd] in H. injection H as -> <-.
    pose proof (success_line_last B _ _ _ _ _ _ _ _ E0) as Hlast.
    apply last_Some in Hlast as [earlier ->].
    eexists earlier, _. split; [reflexivity|]. by destruct converter.
  - destruct (process_raises_with B _ _ _ _ _ _ _ _ H) as (added & -> & Padded).
    exists added. split; [done|].
    eapply Forall_impl; [exact Padded|]. apply progress_not_success.
Qed.

(** ** The tags of the output *)

(** X8.  On a file with a tag header, the tag loop of the MP3 converter
    adds exactly one text frame for each source tag whose lowercased
    key is recognised, in source order, holding the tag's first value;
    the other tags add nothing, nothing fails and nothing is logged. *)
Theorem mp3_frames_are_mapped_tags B mp3_meta source_items frames log :
  mp3_has_tags B mp3_meta = true ->
  Forall (λ item, item.2 ≠ []) source_items ->
  for_each (MP3_LAME_tag B mp3_meta) source_items frames log =
    (Ok (frames ++ omap mp3_frame_of source_items), log).
Proof.
  intros Htags Hall. revert frames.
  induction Hall as [|[key value] rest Hvalue _ IH]; intros frames.
  - cbn. by rewrite app_nil_r.
  - cbn [for_each]. rewrite bind_run.
    destruct value as [|v more]; [done|]. unfold mp3_frame_of at 1.
    cbn [omap list_omap fst snd head].
    destruct (mp3_tag_map !! Py.lower key) as [cls|] eqn:E.
    + rewrite (MP3_LAME_tag_recognized B mp3_meta frames key v more cls log E), Htags.
      rewrite IH. cbn. by rewrite <- app_assoc.
    + unfold MP3_LAME_tag. rewrite E. cbn [mret M_ret]. rewrite IH. reflexivity.
Qed.

Lemma mp3_frames_are_mapped_tags_witness :
  for_each (MP3_LAME_tag (Demo.backend Demo.no_tags) tt)
    [("ARTIST", ["x"; "y"]); ("comment", ["c"]); ("TrackNumber", ["5/12"]);
     ("Title", ["t"])] [] [] =
    (Ok [TextFrame TPE1 3 "x"; TextFrame TRCK 3 "5/12"; TextFrame TIT2 3 "t"], []).
Proof.
  apply (mp3_frames_are_mapped_tags (Demo.backend Demo.no_tags) tt
           [("ARTIST", ["x"; "y"]); ("comment", ["c"]); ("TrackNumber", ["5/12"]);
            ("Title", ["t"])] [] [] eq_refl).
  repeat constructor; discriminate.
Defined.

(** X9.  With a tag library that accepts every value, the tag loop of
    the M4A converter never fails: each source tag with a recognised
    key is assigned to its atom, in source order, with its first
    value, the track number as the pair it parses to; each track
    number that does not parse logs one warning and assigns nothing;
    the other tags do neither. *)
Theorem mp4_atoms_are_mapped_tags B source_items atoms log :
  (∀ key value, mp4_check B key value = None) ->
  Forall (λ item, item.2 ≠ []) source_items ->
  for_each (AAC_better_tag B) source_items atoms log =
    (Ok (atoms ++ omap mp4_atom_of source_items),
     log ++ omap mp4_warning_of source_items).
Proof.
  intros Hcheck Hall. revert atoms log.
  induction Hall as [|[key value] rest Hvalue _ IH]; intros atoms log.
  - cbn. by rewrite !app_nil_r.
  - cbn [for_each]. rewrite bind_run.
    destruct value as [|v more]; [done|].
    unfold mp4_atom_of at 1, mp4_warning_of at 1.
    cbn [omap list_omap fst snd head].
    destruct (mp4_tag_map !! Py.lower key) as [atom|] eqn:E.
    + cbn [mbind option_bind]. destruct (decide (atom = "trkn")) as [->|Hne].
      * assert (Py.lower key = "tracknumber") as Hk by (by apply (mp4_trkn_iff _ _ E)).
        rewrite (AAC_better_tag_track B atoms key v more log Hk).
        destruct (parse_track v) as [numbers|].
        -- rewrite Hcheck, IH. cbn. by rewrite <- app_assoc.
        -- rewrite IH. cbn. by rewrite <- app_assoc.
      * assert (Py.lower key ≠ "tracknumber") as Hk
          by (intros Hk; by apply (mp4_trkn_iff _ _ E) in Hk).
        rewrite (AAC_better_tag_text B atoms key v more atom log E Hk), Hcheck, IH.
        cbn. by rewrite <- app_assoc.
    + unfold AAC_better_tag. rewrite E. cbn [mret M_ret]. rewrite IH. reflexivity.
Qed.

Lemma mp4_atoms_are_mapped_tags_witness :
  for_each (AAC_better_tag (Demo.backend Demo.no_tags))
    [("ARTIST", ["x"; "y"]); ("comment", ["c"]); ("TrackNumber", ["5/12"]);
     ("tracknumber", ["abc"]); ("Title", ["t"])] [] [] =
    (Ok [(String copyright "ART", Mp4Text "x"); ("trkn", Mp4Pairs [(5, 12)%Z]);
         (String copyright "nam", Mp4Text "t")],
     ["WARNING: Could not parse track number 'abc'. Skipping."]).
Proof.
  apply (mp4_atoms_are_mapped_tags (Demo.backend Demo.no_tags)
           [("ARTIST", ["x"; "y"]); ("comment", ["c"]); ("TrackNumber", ["5/12"]);
            ("tracknumber", ["abc"]); ("Title", ["t"])] [] []).
  - reflexivity.
  - repeat constructor; discriminate.
Defined.

(** ** What a conversion logs *)

Section ConversionLog.
Context (B : Backend).

Lemma MP3_LAME_tag_silent mp3_meta frames item l :
  (MP3_LAME_tag B mp3_meta frames item l).2 = l.
Proof.
  destruct item as [key value]. unfold MP3_LAME_tag, mp3_tags_add.
  destruct (mp3_tag_map !! Py.lower key); [|reflexivity].
  rewrite bind_run. destruct (mp3_has_tags B mp3_meta); [|reflexivity].
  by destruct value.
Qed.

Lemma MP3_LAME_tags_silent mp3_meta source_items frames l :
  (for_each (MP3_LAME_tag B mp3_meta) source_items frames l).2 = l.
Proof.
  revert frames. induction source_items as [|item rest IH]; intros frames; [done|].
  cbn [for_each]. rewrite bind_run.
  pose proof (MP3_LAME_tag_silent mp3_meta frames item l) as H.
  destruct (MP3_LAME_tag B mp3_meta frames item l) as [[frames'|e] l'];
    cbn [snd] in H; subst l'; [apply IH | reflexivity].
Qed.

Lemma MP3_LAME_picture_silent mp3_meta flac_meta frames l :
  (MP3_LAME_picture B mp3_meta flac_meta frames l).2 = l.
Proof.
  unfold MP3_LAME_picture, mp3_tags_add. destruct (pictures flac_meta); [reflexivity|].
  rewrite bind_run. by destruct (mp3_has_tags B mp3_meta).
Qed.

Lemma parameters_log bitrate conversion_type l :
  (MP3_LAME_parameters bitrate conversion_type l).2 =
    l ++ ["INFO: Applying " +:+ Py.upper conversion_type +:+ " encoding (audio only)."] ∧
  (AAC_better_parameters bitrate conversion_type l).2 =
    l ++ ["INFO: Applying " +:+ Py.upper conversion_type +:+ " encoding (audio only)."].
Proof.
  unfold MP3_LAME_parameters, AAC_better_parameters.
  split; case_decide; subst; reflexivity.
Qed.

(** X10.  A successful MP3 conversion appends exactly seven lines to
    the log, in this order, and never a warning. *)
Theorem MP3_LAME_success_log file_data bitrate conversion_type filename log out log' :
  MP3_LAME_process B file_data bitrate conversion_type filename log = (Ok out, log') ->
  ∃ audio,
    from_file B (seek file_data 0) = Ok audio ∧
    log' = log ++
      ["INFO: Starting MP3 conversion for '" +:+ filename +:+ "'.";
       "INFO: Successfully extracted source metadata.";
       "INFO: Loaded audio data. Duration: " +:+ duration_text B audio +:+ "s.";
       "INFO: Applying " +:+ Py.upper conversion_type +:+ " encoding (audio only).";
       "INFO: Audio conversion complete. Applying metadata.";
       "INFO: Metadata successfully applied.";
       "SUCCESS: Finished MP3 conversion for '" +:+ filename +:+ "'."].
Proof.
  intros H. unfold MP3_LAME_process in H.
  do 13 run_step H. lifted. injection H as <- <-.
  repeat match goal with
         | E : append _ _ = (Ok _, _) |- _ =>
             unfold append, modify in E; injection E as ?; subst
         | E : MP3_LAME_parameters _ _ ?l = (Ok _, _) |- _ =>
             apply (f_equal snd) in E; cbn [snd] in E;
             rewrite (proj1 (parameters_log _ _ _)) in E; subst
         | E : for_each (MP3_LAME_tag _ _) _ _ ?l = (Ok _, _) |- _ =>
             apply (f_equal snd) in E; cbn [snd] in E;
             rewrite MP3_LAME_tags_silent in E; subst
         | E : MP3_LAME_picture _ _ _ _ ?l = (Ok _, _) |- _ =>
             apply (f_equal snd) in E; cbn [snd] in E;
             rewrite MP3_LAME_picture_silent in E; subst
         end.
  eexists. split; [eassumption|]. by rewrite <- !app_assoc.
Qed.

(** X11.  A source that cannot be read as FLAC stops [process] at once:
    it raises the reader's exception with the start line as its only
    log entry; a source whose audio cannot be decoded stops it after
    the metadata line, with the decoder's exception. *)
Theorem unreadable_source_stops_process converter file_data bitrate conversion_type
    filename log e :
  let start :=
    "INFO: Starting "
    +:+ (match converter with MP3_LAME => "MP3" | AAC_better => "M4A (AAC)" end)
    +:+ " conversion for '" +:+ filename +:+ "'." in
  (flac_open B (seek file_data 0) = Raise e ->
   process B converter file_data bitrate conversion_type filename log =
     (Raise e, log ++ [start])) ∧
  (∀ flac_meta,
     flac_open B (seek file_data 0) = Ok flac_meta ->
     from_file B (seek file_data 0) = Raise e ->
     process B converter file_data bitrate conversion_type filename log =
       (Raise e, log ++ [start; "INFO: Successfully extracted source metadata."])).
Proof.
  cbv zeta. split.
  - intros H. destruct converter; cbn [process];
      [unfold MP3_LAME_process | unfold AAC_better_process];
      rewrite bind_run; cbn [append modify]; rewrite bind_run;
      unfold lift_result at 1; by rewrite H.
  - intros flac_meta H1 H2. destruct converter; cbn [process];
      [unfold MP3_LAME_process | unfold AAC_better_process];
      rewrite bind_run; cbn [append modify]; rewrite bind_run;
      unfold lift_result at 1; rewrite H1; cbv beta iota;
      rewrite bind_run; cbn [append modify]; rewrite bind_run;
      unfold lift_result at 1; rewrite H2; by rewrite <- app_assoc.
Qed.

End ConversionLog.

Lemma MP3_LAME_success_log_witness :
  ∃ audio,
    Demo.decode (seek (file_data (Demo.song "a.flac")) 0) = Ok audio ∧
    ["old";
     "INFO: Starting MP3 conversion for 'a.flac'.";
     "INFO: Successfully extracted source metadata.";
     "INFO: Loaded audio data. Duration: 0.00s.";
     "INFO: Applying ABR encoding (audio only).";
     "INFO: Audio conversion complete. Applying metadata.";
     "INFO: Metadata successfully applied.";
     "SUCCESS: Finished MP3 conversion for 'a.flac'."] =
    ["old"] ++
      ["INFO: Starting MP3 conversion for '" +:+ "a.flac" +:+ "'.";
       "INFO: Successfully extracted source metadata.";
       "INFO: Loaded audio data. Duration: " +:+ "0.00" +:+ "s.";
       "INFO: Applying " +:+ Py.upper "abr" +:+ " encoding (audio only).";
       "INFO: Audio conversion complete. Applying metadata.";
       "INFO: Metadata successfully applied.";
       "SUCCESS: Finished MP3 conversion for '" +:+ "a.flac" +:+ "'."].
Proof.
  exact (MP3_LAME_success_log (Demo.backend Demo.no_tags)
           (file_data (Demo.song "a.flac")) 320 "abr" "a.flac" ["old"]
           {| getvalue := [Byte.x66; Byte.x4c]; tell := 2 |} _ eq_refl).
Defined.

Lemma unreadable_source_stops_process_witness :
  process (Demo.backend Demo.no_tags) AAC_better (file_data (Demo.broken "b.flac"))
          320 "cbr" "b.flac" ["old"] =
    (Raise Demo.invalid, ["old"; "INFO: Starting M4A (AAC) conversion for 'b.flac'."]).
Proof.
  exact (proj1 (unreadable_source_stops_process (Demo.backend Demo.no_tags) AAC_better
                  (file_data (Demo.broken "b.flac")) 320 "cbr" "b.flac" ["old"]
                  Demo.invalid) eq_refl).
Defined.

(** ** Track numbers as they are usually written *)

Lemma digit_of_pretty_char r :
  (r < 10)%N -> Py.digit_of (pretty_N_char r) = Some (Z.of_N r).
Proof.
  intros H.
  assert (r = 0 ∨ r = 1 ∨ r = 2 ∨ r = 3 ∨ r = 4 ∨ r = 5 ∨ r = 6 ∨ r = 7 ∨ r = 8 ∨ r = 9)%N
    as Hr by lia.
  by destruct Hr as [->|[->|[->|[->|[->|[->|[->|[->|[->| ->]]]]]]]]].
Qed.

Lemma pretty_char_not_slash r : Ascii.eqb (pretty_N_char r) "/" = false.
Proof. unfold pretty_N_char. by repeat case_match. Qed.

Lemma int_unsigned_pretty x s :
  (0 < x)%N -> Py.int_unsigned (pretty_N_go x s) = Py.int_digits (Z.of_N x) s.
Proof.
  revert s. induction (N.lt_wf_0 x) as [x _ IH]; intros s Hx.
  rewrite pretty_N_go_step by done.
  pose proof (N.mod_lt x 10 ltac:(done)) as Hr.
  pose proof (N.div_mod x 10 ltac:(done)) as Hx10.
  pose proof (N.div_lt x 10 Hx ltac:(done)) as Hlt.
  set (q := (x `div` 10)%N) in *. set (r := (x `mod` 10)%N) in *.
  clearbody q r.
  destruct (decide (q = 0)%N) as [Hq|Hq].
  - rewrite Hq, pretty_N_go_0. cbn [Py.int_unsigned].
    rewrite digit_of_pretty_char by done. f_equal. lia.
  - rewrite IH; [|done|lia]. cbn [Py.int_digits].
    rewrite digit_of_pretty_char by done. f_equal. lia.
Qed.

Lemma pretty_go_head x s :
  (0 < x)%N -> ∃ c rest d, pretty_N_go x s = String c rest ∧ Py.digit_of c = Some d.
Proof.
  revert s. induction (N.lt_wf_0 x) as [x _ IH]; intros s Hx.
  rewrite pretty_N_go_step by done.
  destruct (decide (x `div` 10 = 0)%N) as [Hq|Hq].
  - rewrite Hq, pretty_N_go_0. eexists _, _, _. split; [reflexivity|].
    apply digit_of_pretty_char. by apply N.mod_lt.
  - apply IH; [by apply N.div_lt | by apply N.neq_0_lt_0].
Qed.

Lemma int_digit_head c rest d :
  Py.digit_of c = Some d -> Py.int (String c rest) = Py.int_unsigned (String c rest).
Proof.
  destruct c as [[] [] [] [] [] [] [] []]; intros H;
    first [discriminate H | reflexivity].
Qed.

Lemma contains_slash_pretty_go x s :
  Py.contains "/" (pretty_N_go x s) = Py.contains "/" s.
Proof.
  revert s. induction (N.lt_wf_0 x) as [x _ IH]; intros s.
  destruct (decide (0 < x)%N) as [Hx|Hx].
  - rewrite pretty_N_go_step by done. rewrite IH by (by apply N.div_lt).
    cbn [Py.contains]. by rewrite pretty_char_not_slash.
  - assert (x = 0%N) as -> by lia. by rewrite pretty_N_go_0.
Qed.

Lemma int_unsigned_pretty_pos p : Py.int_unsigned (pretty (Npos p)) = Some (Zpos p).
Proof.
  unfold pretty, pretty_N. rewrite decide_False by done.
  by rewrite int_unsigned_pretty.
Qed.

Lemma int_pretty_pos p : Py.int (pretty (Npos p)) = Some (Zpos p).
Proof.
  rewrite <- int_unsigned_pretty_pos. unfold pretty, pretty_N.
  rewrite decide_False by done.
  destruct (pretty_go_head (Npos p) "" ltac:(done)) as (c & rest & d & -> & Hd).
  by apply int_digit_head with d.
Qed.

(** [int(str(n)) == n]. *)
Lemma int_str n : Py.int (Py.str_of_Z n) = Some n.
Proof.
  unfold Py.str_of_Z, pretty, pretty_Z. destruct n as [|p|p].
  - reflexivity.
  - apply int_pretty_pos.
  - change (Py.int ("-" +:+ pretty p)) with (Z.opp <$> Py.int_unsigned (pretty (Npos p))).
    by rewrite int_unsigned_pretty_pos.
Qed.

Lemma str_has_no_slash n : Py.contains "/" (Py.str_of_Z n) = false.
Proof.
  unfold Py.str_of_Z, pretty, pretty_Z. destruct n as [|p|p]; [reflexivity|..].
  - unfold pretty, pretty_positive, pretty, pretty_N. rewrite decide_False by done.
    apply contains_slash_pretty_go.
  - change (Py.contains "/" ("-" +:+ pretty p))
      with (Py.contains "/" (pretty (Npos p))).
    unfold pretty, pretty_N. rewrite decide_False by done.
    apply contains_slash_pretty_go.
Qed.

Lemma split_whole sep s : Py.contains sep s = false -> Py.split sep s = [s].
Proof.
  induction s as [|c s IH]; [done|]. cbn [Py.contains Py.split]. intros H.
  apply orb_false_iff in H as [Hc Hs]. by rewrite Hc, IH.
Qed.

Lemma split_first sep a b :
  Py.contains sep a = false ->
  Py.split sep (a +:+ String sep b) = a :: Py.split sep b.
Proof.
  induction a as [|c a IH]; intros H.
  - change ("" +:+ String sep b) with (String sep b). cbn [Py.split].
    by rewrite Ascii.eqb_refl.
  - change (String c a +:+ String sep b) with (String c (a +:+ String sep b)).
    cbn [Py.contains] in H. apply orb_false_iff in H as [Hc Ha].
    cbn [Py.split]. by rewrite Hc, IH.
Qed.

Lemma split_nonempty sep s : Py.split sep s ≠ [].
Proof.
  destruct s as [|c s]; [done|]. cbn [Py.split].
  destruct (Ascii.eqb c sep); [done|]. by destruct (Py.split sep s).
Qed.

(** The contract on a value with one separator: the text before the
    first [/] is the track, the text up to the next [/] the total. *)
Lemma parse_track_pair a b :
  Py.contains "/" a = false ->
  parse_track (a +:+ "/" +:+ b) =
    (track ← Py.int a; total ← Py.int (default "" (head (Py.split "/" b)));
     Some (track, total)).
Proof.
  intros Ha. unfold parse_track. change ("/" +:+ b) with (String "/" b).
  rewrite (split_first "/" a b Ha).
  destruct (Py.int a); [|reflexivity]. cbn [mbind option_bind].
  pose proof (split_nonempty "/" b). by destruct (Py.split "/" b).
Qed.

(** X12.  A track number written the usual way is read back as it was
    written: for all integers [n] and [m], the M4A converter assigns
    the pair [(n, m)] for the value [n/m] and [(n, 0)] for the value
    [n], with no warning, when the tag library accepts the pair. *)
Theorem rendered_track_number_is_read_back B atoms key n m rest log :
  Py.lower key = "tracknumber" ->
  (mp4_check B "trkn" (Mp4Pairs [(n, m)]) = None ->
   AAC_better_tag B atoms
     (key, (Py.str_of_Z n +:+ "/" +:+ Py.str_of_Z m) :: rest) log =
     (Ok (atoms ++ [("trkn", Mp4Pairs [(n, m)])]), log)) ∧
  (mp4_check B "trkn" (Mp4Pairs [(n, 0%Z)]) = None ->
   AAC_better_tag B atoms (key, Py.str_of_Z n :: rest) log =
     (Ok (atoms ++ [("trkn", Mp4Pairs [(n, 0%Z)])]), log)).
Proof.
  intros Hk. split; intros Hcheck; rewrite (AAC_better_tag_track B) by done.
  - rewrite parse_track_pair by apply str_has_no_slash.
    rewrite int_str, (split_whole "/" _ (str_has_no_slash m)).
    change (default "" (head [Py.str_of_Z m])) with (Py.str_of_Z m).
    rewrite int_str. cbn [mbind option_bind]. by rewrite Hcheck.
  - unfold parse_track. rewrite (split_whole "/" _ (str_has_no_slash n)), int_str.
    cbn [mbind option_bind]. by rewrite Hcheck.
Qed.

Lemma rendered_track_number_is_read_back_witness :
  AAC_better_tag (Demo.backend Demo.no_tags) [] ("TRACKNUMBER", ["3/14"]) [] =
    (Ok [("trkn", Mp4Pairs [(3, 14)%Z])], []).
Proof.
  exact (proj1 (rendered_track_number_is_read_back (Demo.backend Demo.no_tags) []
                  "TRACKNUMBER" 3 14 [] [] eq_refl) eq_refl).
Defined.

(** ** The session and the page *)

Lemma set_if_missing_keeps key value state key' value' :
  state !! key' = Some value' -> set_if_missing key value state !! key' = Some value'.
Proof.
  intros H. unfold set_if_missing. destruct (state !! key) eqn:E; [done|].
  rewrite lookup_insert_ne; [done|]. intros ->. congruence.
Qed.

Lemma set_if_missing_sets key value state :
  is_Some (set_if_missing key value state !! key).
Proof.
  unfold set_if_missing. destruct (state !! key) eqn:E; [by rewrite E|].
  rewrite lookup_insert_eq. eauto.
Qed.

Lemma set_if_missing_present key value state :
  is_Some (state !! key) -> set_if_missing key value state = state.
Proof. intros [v H]. unfold set_if_missing. by rewrite H. Qed.

Lemma set_if_missing_other key value state key' :
  key ≠ key' -> set_if_missing key value state !! key' = state !! key'.
Proof.
  intros H. unfold set_if_missing. destruct (state !! key); [done|].
  by rewrite lookup_insert_ne.
Qed.

(** X13.  The initialisation [main] performs on every run of the page
    fills in what is missing and nothing else: an entry the session
    already holds (a selection, the log of the last batch) keeps its
    value, the three entries exist afterwards, no other entry is
    touched, and running it again changes nothing.  On a fresh session
    it leaves no format and no type selected and an empty log. *)
Theorem init_session_state_fills_gaps state :
  (∀ key value, state !! key = Some value ->
     init_session_state state !! key = Some value) ∧
  is_Some (init_session_state state !! "format") ∧
  is_Some (init_session_state state !! "type") ∧
  is_Some (init_session_state state !! "logs") ∧
  (∀ key, key ≠ "format" -> key ≠ "type" -> key ≠ "logs" ->
     init_session_state state !! key = state !! key) ∧
  init_session_state (init_session_state state) = init_session_state state ∧
  init_session_state ∅ = <["logs" := SLogs []]> (<["type" := SNone]> (<["format" := SNone]> ∅)).
Proof.
  unfold init_session_state.
  assert (Hformat : is_Some (set_if_missing "logs" (SLogs [])
            (set_if_missing "type" SNone (set_if_missing "format" SNone state))
            !! "format")).
  { destruct (set_if_missing_sets "format" SNone state) as [v Hv].
    exists v. by do 2 apply set_if_missing_keeps. }
  assert (Htype : is_Some (set_if_missing "logs" (SLogs [])
            (set_if_missing "type" SNone (set_if_missing "format" SNone state))
            !! "type")).
  { destruct (set_if_missing_sets "type" SNone (set_if_missing "format" SNone state))
      as [v Hv].
    exists v. by apply set_if_missing_keeps. }
  pose proof (set_if_missing_sets "logs" (SLogs [])
                (set_if_missing "type" SNone (set_if_missing "format" SNone state)))
    as Hlogs.
  split; [intros key value H; by do 3 apply set_if_missing_keeps|].
  split; [done|]. split; [done|]. split; [done|].
  split; [intros key H1 H2 H3; by rewrite !set_if_missing_other|].
  split; [|reflexivity].
  rewrite (set_if_missing_present "format") by done.
  rewrite (set_if_missing_present "type") by done.
  by rewrite (set_if_missing_present "logs").
Qed.

Lemma init_session_state_fills_gaps_witness :
  init_session_state (select_option "mp3" "vbr" ∅) !! "format" = Some (SStr "mp3").
Proof.
  apply (proj1 (init_session_state_fills_gaps (select_option "mp3" "vbr" ∅))).
  reflexivity.
Defined.

Lemma select_option_selects format type state shown made :
  session_format (world_of (select_option format type state) shown made) = Some format ∧
  session_type (world_of (select_option format type state) shown made) = Some type.
Proof.
  unfold world_of, select_option, session_string. cbn [session_format session_type].
  rewrite lookup_insert_ne by done. by rewrite !lookup_insert_eq.
Qed.

(** X14.  Every option the page offers is one the driver can serve:
    after the callback of any of the six option buttons, a rerun of the
    initialisation leaves the selection in place, the convert button is
    enabled, the format is one the factory has a converter for, and the
    type is one of [cbr], [vbr] and [abr]. *)
Theorem every_option_is_supported key format type state shown made :
  (key, (format, type)) ∈ option_buttons ->
  let w := world_of (init_session_state (select_option format type state)) shown made in
  session_format w = Some format ∧
  session_type w = Some type ∧
  truthy (session_format w) && truthy (session_type w) = true ∧
  get_converter format = Ok (if decide (format = "mp3") then MP3_LAME else AAC_better) ∧
  type ∈ ["cbr"; "vbr"; "abr"].
Proof.
  intros Hin w.
  assert (session_format w = Some format ∧ session_type w = Some type) as [Hf Ht].
  { subst w. unfold world_of, session_string. cbn [session_format session_type].
    destruct (init_session_state_fills_gaps (select_option format type state))
      as (Hkeep & _).
    rewrite (Hkeep "format" (SStr format)), (Hkeep "type" (SStr type)); [done|..];
      unfold select_option.
    - by rewrite lookup_insert_eq.
    - rewrite lookup_insert_ne by done. by rewrite lookup_insert_eq. }
  rewrite Hf, Ht. split; [done|]. split; [done|].
  unfold option_buttons in Hin. rewrite !elem_of_cons, elem_of_nil in Hin.
  destruct Hin as [[= -> -> ->]|[[= -> -> ->]|[[= -> -> ->]|[[= -> -> ->]|
                  [[= -> -> ->]|[[= -> -> ->]|[]]]]]]];
    (split; [reflexivity|]); (split; [reflexivity|]);
    rewrite !elem_of_cons; auto.
Qed.

Lemma every_option_is_supported_witness :
  let w := world_of (init_session_state (select_option "m4a" "abr" ∅)) [] [] in
  session_format w = Some "m4a" ∧
  session_type w = Some "abr" ∧
  get_converter "m4a" = Ok AAC_better.
Proof.
  destruct (every_option_is_supported "abr_m4a" "m4a" "abr" ∅ [] [])
    as (Hf & Ht & _ & Hc & _).
  - by apply (bool_decide_unpack _).
  - split; [exact Hf|]. split; [exact Ht | exact Hc].
Defined.

Lemma split_join lines :
  lines ≠ [] ->
  Forall (λ line, Py.contains newline line = false) lines ->
  Py.split newline (join (String newline "") lines) = lines.
Proof.
  intros Hne Hall. induction Hall as [|line rest Hline Hrest IH]; [done|].
  destruct rest as [|next rest].
  - cbn [join]. by apply split_whole.
  - change (join (String newline "") (line :: next :: rest))
      with (line +:+ String newline "" +:+ join (String newline "") (next :: rest)).
    change (String newline "" +:+ join (String newline "") (next :: rest))
      with (String newline (join (String newline "") (next :: rest))).
    rewrite split_first by done. by rewrite IH.
Qed.

(** X15.  The Logs tab shows the log as it is: a log that is not empty
    is shown as one block of text whose lines, split at the newlines,
    are the log entries in order (given that no entry holds a newline
    itself); an empty log is shown as the placeholder, not as an empty
    block. *)
Theorem display_logs_shows_every_line logs :
  logs ≠ [] ->
  Forall (λ line, Py.contains newline line = false) logs ->
  display_logs [] = Info "meow" ∧
  ∃ text, display_logs logs = Code text "log" ∧ Py.split newline text = logs.
Proof.
  intros Hne Hall. split; [reflexivity|].
  exists (join (String newline "") logs). split; [by destruct logs|].
  by apply split_join.
Qed.

Lemma display_logs_shows_every_line_witness :
  ∃ text,
    display_logs ["BATCH START: Initializing conversion for 1 file(s).";
                  "BATCH INFO: Target format: OGG, Type: CBR.";
                  "ERROR: An unexpected error occurred: Unknown format specified"] =
      Code text "log" ∧
    Py.split newline text =
      ["BATCH START: Initializing conversion for 1 file(s).";
       "BATCH INFO: Target format: OGG, Type: CBR.";
       "ERROR: An unexpected error occurred: Unknown format specified"].
Proof.
  apply (display_logs_shows_every_line
           ["BATCH START: Initializing conversion for 1 file(s).";
            "BATCH INFO: Target format: OGG, Type: CBR.";
            "ERROR: An unexpected error occurred: Unknown format specified"]).
  - discriminate.
  - repeat constructor.
Defined.

(** ** The driver only appends *)

Lemma grows_refl w : grows w w.
Proof. repeat split; exists []; by rewrite app_nil_r. Qed.

Lemma grows_trans w0 w1 w2 : grows w0 w1 -> grows w1 w2 -> grows w0 w2.
Proof.
  intros (Hf1 & Ht1 & [a1 Ha1] & [s1 Hs1] & [c1 Hc1])
         (Hf2 & Ht2 & [a2 Ha2] & [s2 Hs2] & [c2 Hc2]).
  split; [congruence|]. split; [congruence|].
  split; [exists (a1 ++ a2); by rewrite Ha2, Ha1, app_assoc|].
  split; [exists (s1 ++ s2); by rewrite Hs2, Hs1, app_assoc|].
  exists (c1 ++ c2). by rewrite Hc2, Hc1, app_assoc.
Qed.

Lemma grows_extend added made w : grows w (extend added made w).
Proof.
  split; [done|]. split; [done|]. split; [by exists added|].
  split; [exists []; cbn; by rewrite app_nil_r | by exists made].
Qed.

Lemma grows_add_ui e w : grows w (add_ui e w).
Proof.
  split; [done|]. split; [done|]. split; [exists []; cbn; by rewrite app_nil_r|].
  split; [by exists [e] | exists []; cbn; by rewrite app_nil_r].
Qed.

Lemma growing_ret {A} (a : A) : growing (mret a).
Proof. intros w. apply grows_refl. Qed.

Lemma growing_lift_result {A} (r : Result A) : growing (lift_result r).
Proof. intros w. apply grows_refl. Qed.

Lemma growing_index {A} (l : list A) i : growing (index l i).
Proof. intros w. unfold index. destruct (l !! i); apply grows_refl. Qed.

Lemma growing_log line : growing (log line).
Proof. intros w. rewrite log_run. apply grows_extend. Qed.

Lemma growing_show e : growing (show e).
Proof. intros w. rewrite show_run. apply grows_add_ui. Qed.

Lemma growing_record c : growing (record c).
Proof. intros w. rewrite record_run. apply grows_extend. Qed.

Lemma growing_with_logger {A} P (m : M Log A) : appends P m -> growing (with_logger m).
Proof. intros H w. rewrite (with_logger_run P m w H). apply grows_extend. Qed.

Lemma growing_bind {A C} (m : M World A) (k : A -> M World C) :
  growing m -> (∀ a, growing (k a)) -> growing (m ≫= k).
Proof.
  intros Hm Hk w. rewrite bind_run. specialize (Hm w).
  destruct (m w) as [[a|e] w1]; cbn [snd] in *; [|done].
  eapply grows_trans; [exact Hm | apply Hk].
Qed.

Lemma growing_try_except {A} (body : M World A) caught (handler : Exn -> M World A) :
  growing body -> (∀ e, growing (handler e)) -> growing (try_except body caught handler).
Proof.
  intros Hm Hk w. unfold try_except. specialize (Hm w).
  destruct (body w) as [[a|e] w1]; cbn [snd] in *; [done|].
  destruct (caught (exn_class e)); [|done].
  eapply grows_trans; [exact Hm | apply Hk].
Qed.

Lemma growing_for_each {A X} (body : A -> X -> M World A) (xs : list X) (acc : A) :
  (∀ a x, growing (body a x)) -> growing (for_each body xs acc).
Proof.
  intros Hb. revert acc. induction xs as [|x xs IH]; intros acc; cbn [for_each].
  - apply growing_ret.
  - apply growing_bind; [apply Hb | intros a; apply IH].
Qed.

Section Growing.
Context (B : Backend).

Lemma growing_call_process converter file bitrate conversion_type :
  growing (call_process B converter file bitrate conversion_type).
Proof.
  unfold call_process. apply growing_bind; [apply growing_record | intros _].
  apply (growing_with_logger not_error), process_appends.
Qed.

Lemma growing_zip_one converter selected_format conversion_type total acc file :
  growing (zip_one B converter selected_format conversion_type total acc file).
Proof.
  destruct acc as [i zip_file]. unfold zip_one.
  repeat (apply growing_bind; [first [apply growing_log | apply growing_call_process]
                              | intros ?]).
  apply growing_ret.
Qed.

Lemma growing_convert_all files selected_format conversion_type :
  growing (convert_all B files selected_format conversion_type).
Proof.
  unfold convert_all.
  apply growing_bind; [apply growing_record | intros _].
  apply growing_bind; [apply growing_lift_result | intros converter].
  apply growing_bind; [apply growing_show | intros _].
  case_decide.
  - apply growing_bind; [apply growing_index | intros file].
    apply growing_bind; [apply growing_call_process | intros out].
    apply growing_bind; [apply growing_show | intros _]. apply growing_show.
  - apply growing_bind; [apply growing_for_each; intros; apply growing_zip_one | intros acc].
    repeat (apply growing_bind; [first [apply growing_log | apply growing_show]
                                | intros ?]).
    apply growing_show.
Qed.

Lemma growing_report e : growing (report e).
Proof.
  unfold report. apply growing_bind; [apply growing_log | intros _]. apply growing_show.
Qed.

(** X1.  After the reset at its entry [process_files] only appends,
    whatever the libraries do: with both options selected, the log it
    leaves is the two header lines of this batch followed by what was
    logged since (nothing of an earlier batch is left), what the page
    showed before is still shown, and the selection is as it was. *)
Theorem process_files_only_appends files selected_format conversion_type w :
  session_format w = Some selected_format ->
  session_type w = Some conversion_type ->
  let after := (process_files B files w).2 in
  session_format after = Some selected_format ∧
  session_type after = Some conversion_type ∧
  (∃ added, session_logs after =
              batch_header files selected_format conversion_type ++ added) ∧
  (∃ shown, ui after = ui w ++ shown) ∧
  (∃ made, calls after = calls w ++ made).
Proof.
  intros Hf Ht after. subst after.
  rewrite (process_files_run B files selected_format conversion_type w Hf Ht).
  exact (growing_try_except _ any_exception report
           (growing_convert_all files selected_format conversion_type) growing_report
           {| session_format := Some selected_format;
              session_type := Some conversion_type;
              session_logs := batch_header files selected_format conversion_type;
              ui := ui w; calls := calls w |}).
Qed.

End Growing.

Lemma process_files_only_appends_witness :
  let after := (process_files (Demo.backend Demo.no_tags)
                  [Demo.song "a.flac"; Demo.broken "b.flac"]
                  (Demo.session "m4a" "vbr")).2 in
  ∃ added,
    session_logs after =
      ["BATCH START: Initializing conversion for 2 file(s).";
       "BATCH INFO: Target format: M4A, Type: VBR."] ++ added.
Proof.
  exact (proj1 (proj2 (proj2 (process_files_only_appends (Demo.backend Demo.no_tags)
           [Demo.song "a.flac"; Demo.broken "b.flac"] "m4a" "vbr"
           (Demo.session "m4a" "vbr") eq_refl eq_refl)))).
Defined.
